(** * The project planner: document analyzer and plan generator

    A shallow embedding of [document_analyzer.py] and [project_planner.py].
    Python values are modelled as follows.

    - [str] is [string]; the text is taken to be ASCII, so the character
      classes of [re] and [str] are the ASCII ones.
    - [int] is [Z]; [//] is [Z.div] and [%] is [Z.modulo] (both floor).
    - [datetime.date] is its proleptic Gregorian ordinal ([date.toordinal]),
      a [Z] between [MINORD] and [MAXORD]; [timedelta] is a number of days.
    - an exception is a value [Raise e] of the type [result].
    - a [pandas.DataFrame] is a list of column names and a list of rows, a
      row being a finite map from column names to cells; the index is the
      default [RangeIndex], i.e. the position of the row.
    - [random] is a tape of raw draws that is threaded through the analyzer.
    - [hash], [nltk.sent_tokenize] and the clock are parameters. *)

From Stdlib Require Import ZArith Lia List Bool Ascii String.
From Stdlib Require Import Decimal DecimalString DecimalZ.
From stdpp Require Import base option list gmap strings.

Local Open Scope string_scope.
Local Open Scope Z_scope.

(** ** Exceptions *)

Inductive exc : Type :=
  | KeyError
  | ValueError
  | TypeError
  | IndexError
  | OverflowError.

Inductive result (A : Type) : Type :=
  | Ok (a : A)
  | Raise (e : exc).

Arguments Ok {A} a.
Arguments Raise {A} e.

#[global] Instance result_ret : MRet result := fun A a => Ok a.
#[global] Instance result_bind : MBind result := fun A B k m =>
  match m with
  | Ok a => k a
  | Raise e => Raise e
  end.

(** A list comprehension whose element expression may raise. *)
Fixpoint rmap {A B : Type} (f : A -> result B) (l : list A) : result (list B) :=
  match l with
  | [] => Ok []
  | a :: l' => b ← f a; bs ← rmap f l'; Ok (b :: bs)
  end.

(** ** Python strings *)

Module PyStr.

Definition code (c : ascii) : Z := Z.of_nat (nat_of_ascii c).

Definition is_digit (c : ascii) : bool := (48 <=? code c) && (code c <=? 57).
Definition is_upper (c : ascii) : bool := (65 <=? code c) && (code c <=? 90).
Definition is_lower (c : ascii) : bool := (97 <=? code c) && (code c <=? 122).
Definition is_alpha (c : ascii) : bool := is_upper c || is_lower c.

(** [\w] of [re] on ASCII text. *)
Definition is_word (c : ascii) : bool :=
  is_alpha c || is_digit c || (code c =? 95).

(** [\s] of [re] and the separators of [str.split()] and [str.strip()]. *)
Definition is_space (c : ascii) : bool :=
  ((9 <=? code c) && (code c <=? 13)) || ((28 <=? code c) && (code c <=? 32)).

Definition no_space (c : ascii) : bool := negb (is_space c).

Definition digit_val (c : ascii) : Z := code c - 48.

Definition to_lower (c : ascii) : ascii :=
  if is_upper c then ascii_of_nat (nat_of_ascii c + 32) else c.
Definition to_upper (c : ascii) : ascii :=
  if is_lower c then ascii_of_nat (nat_of_ascii c - 32) else c.

(** [s.lower()] *)
Fixpoint lower (s : string) : string :=
  match s with
  | EmptyString => EmptyString
  | String c s' => String (to_lower c) (lower s')
  end.

(** [s.startswith(p)] *)
Fixpoint startswith (p s : string) : bool :=
  match p, s with
  | EmptyString, _ => true
  | String a p', String b s' => Ascii.eqb a b && startswith p' s'
  | String _ _, EmptyString => false
  end.

(** [p in s] *)
Fixpoint contains (p s : string) : bool :=
  startswith p s ||
  match s with
  | EmptyString => false
  | String _ s' => contains p s'
  end.

Definition starts_space (s : string) : bool :=
  match s with
  | EmptyString => true
  | String c _ => is_space c
  end.

(** [s.split()]: the maximal runs of characters that are not whitespace. *)
Fixpoint split (s : string) : list string :=
  match s with
  | EmptyString => []
  | String c s' =>
      if is_space c then split s'
      else if starts_space s' then String c EmptyString :: split s'
      else match split s' with
           | w :: ws => String c w :: ws
           | [] => [String c EmptyString]
           end
  end.

(** [sep.join(l)] *)
Fixpoint join (sep : string) (l : list string) : string :=
  match l with
  | [] => EmptyString
  | [w] => w
  | w :: l' => w +:+ sep +:+ join sep l'
  end.

Fixpoint lstrip (s : string) : string :=
  match s with
  | EmptyString => EmptyString
  | String c s' => if is_space c then lstrip s' else s
  end.

Fixpoint rstrip (s : string) : string :=
  match s with
  | EmptyString => EmptyString
  | String c s' =>
      match rstrip s' with
      | EmptyString => if is_space c then EmptyString else String c EmptyString
      | r => String c r
      end
  end.

(** [s.strip()] *)
Definition strip (s : string) : string := rstrip (lstrip s).

(** [s.title()]: a letter that follows a letter is lowered, any other
    letter is raised. *)
Fixpoint title_from (prev_cased : bool) (s : string) : string :=
  match s with
  | EmptyString => EmptyString
  | String c s' =>
      String (if prev_cased then to_lower c else to_upper c)
             (title_from (is_alpha c) s')
  end.

Definition title (s : string) : string := title_from false s.

(** [s[:n]] for [0 <= n] *)
Fixpoint take (n : nat) (s : string) : string :=
  match n, s with
  | S n', String c s' => String c (take n' s')
  | _, _ => EmptyString
  end.

Definition len (s : string) : Z := Z.of_nat (String.length s).

(** [str(n)] for an [int] *)
Definition str_int (n : Z) : string := NilZero.string_of_int (Z.to_int n).

(** [int(s)] for the literals the program meets: optional whitespace
    around an optional sign and a non-empty run of decimal digits. *)
Definition int (s : string) : result Z :=
  let t := strip s in
  let parsed :=
    match t with
    | String "+"%char t' =>
        match t' with
        | String "-"%char _ => None
        | _ => NilZero.int_of_string t'
        end
    | _ => NilZero.int_of_string t
    end in
  match parsed with
  | Some d => Ok (Z.of_int d)
  | None => Raise ValueError
  end.

(** A run of decimal digits read as a number (most significant first). *)
Fixpoint digits_val (acc : Z) (s : string) : Z :=
  match s with
  | EmptyString => acc
  | String c s' => digits_val (10 * acc + digit_val c) s'
  end.

Fixpoint all_chars (p : ascii -> bool) (s : string) : bool :=
  match s with
  | EmptyString => true
  | String c s' => p c && all_chars p s'
  end.

End PyStr.

(** ** Dates: [datetime.date] as a proleptic Gregorian ordinal *)

Module PyDate.

Definition MINORD : Z := 1.
Definition MAXORD : Z := 3652059.

Definition _DI400Y : Z := 146097.
Definition _DI100Y : Z := 36524.
Definition _DI4Y : Z := 1461.

Definition _is_leap (year : Z) : bool :=
  (year mod 4 =? 0) && (negb (year mod 100 =? 0) || (year mod 400 =? 0)).

Definition _DAYS_IN_MONTH : list Z :=
  [-1; 31; 28; 31; 30; 31; 30; 31; 31; 30; 31; 30; 31].

Definition _DAYS_BEFORE_MONTH : list Z :=
  [-1; 0; 31; 59; 90; 120; 151; 181; 212; 243; 273; 304; 334].

Definition _days_before_year (year : Z) : Z :=
  let y := year - 1 in
  y * 365 + y / 4 - y / 100 + y / 400.

Definition _days_in_month (year month : Z) : Z :=
  if (month =? 2) && _is_leap year then 29
  else nth (Z.to_nat month) _DAYS_IN_MONTH 0.

Definition _days_before_month (year month : Z) : Z :=
  nth (Z.to_nat month) _DAYS_BEFORE_MONTH 0
  + (if (2 <? month) && _is_leap year then 1 else 0).

Definition _ymd2ord (year month day : Z) : Z :=
  _days_before_year year + _days_before_month year month + day.

(** The month and day of the [n]-th day (from 0) of a year. *)
Definition _month_day (leapyear : bool) (n : Z) : Z * Z :=
  let month := Z.shiftr (n + 50) 5 in
  let preceding :=
    nth (Z.to_nat month) _DAYS_BEFORE_MONTH 0
    + (if (2 <? month) && leapyear then 1 else 0) in
  if n <? preceding then
    let month' := month - 1 in
    let preceding' :=
      preceding - (nth (Z.to_nat month') _DAYS_IN_MONTH 0
                   + (if (month' =? 2) && leapyear then 1 else 0)) in
    (month', n - preceding' + 1)
  else (month, n - preceding + 1).

Definition _ord2ymd (ord : Z) : Z * Z * Z :=
  let n := ord - 1 in
  let n400 := n / _DI400Y in
  let n := n mod _DI400Y in
  let year := n400 * 400 + 1 in
  let n100 := n / _DI100Y in
  let n := n mod _DI100Y in
  let n4 := n / _DI4Y in
  let n := n mod _DI4Y in
  let n1 := n / 365 in
  let n := n mod 365 in
  let year := year + (n100 * 100 + n4 * 4 + n1) in
  if (n1 =? 4) || (n100 =? 4) then (year - 1, 12, 31)
  else
    let leapyear := (n1 =? 3) && (negb (n4 =? 24) || (n100 =? 3)) in
    let '(month, day) := _month_day leapyear n in
    (year, month, day).

(** [date.weekday()]: Monday is 0. *)
Definition weekday (ord : Z) : Z := (ord + 6) mod 7.

(** [d + timedelta(days=n)] *)
Definition add_days (d n : Z) : result Z :=
  let r := d + n in
  if (MINORD <=? r) && (r <=? MAXORD) then Ok r else Raise OverflowError.

Definition day_abbr (wd : Z) : string :=
  nth (Z.to_nat wd) ["Mon"; "Tue"; "Wed"; "Thu"; "Fri"; "Sat"; "Sun"] "".

Definition digit_char (d : Z) : ascii := ascii_of_nat (Z.to_nat (48 + d)).

(** A number below 100 on two digits, as [%m], [%d] and [%y] print it. *)
Definition two_digits (n : Z) : string :=
  String (digit_char (n / 10)) (String (digit_char (n mod 10)) EmptyString).

(** [d.strftime('%a %m/%d/%y')] *)
Definition strftime (ord : Z) : string :=
  let '(year, month, day) := _ord2ymd ord in
  day_abbr (weekday ord) +:+ " " +:+ two_digits month +:+ "/"
  +:+ two_digits day +:+ "/" +:+ two_digits (year mod 100).

(** The text up to the first ["/"] and the text after it. *)
Fixpoint cut_slash (s : string) : option (string * string) :=
  match s with
  | EmptyString => None
  | String c s' =>
      if Ascii.eqb c "/" then Some (EmptyString, s')
      else match cut_slash s' with
           | Some (a, b) => Some (String c a, b)
           | None => None
           end
  end.

(** [%m]: [1[0-2]|0[1-9]|[1-9]] *)
Definition parse_month (t : string) : option Z :=
  match t with
  | String a EmptyString =>
      if PyStr.is_digit a && negb (Ascii.eqb a "0")
      then Some (PyStr.digit_val a) else None
  | String a (String b EmptyString) =>
      if Ascii.eqb a "1" && PyStr.is_digit b && (PyStr.digit_val b <=? 2)
      then Some (10 + PyStr.digit_val b)
      else if Ascii.eqb a "0" && PyStr.is_digit b && negb (Ascii.eqb b "0")
      then Some (PyStr.digit_val b)
      else None
  | _ => None
  end.

(** [%d]: [3[01]|[12]\d|0[1-9]|[1-9]| [1-9]] *)
Definition parse_day (t : string) : option Z :=
  match t with
  | String a EmptyString =>
      if PyStr.is_digit a && negb (Ascii.eqb a "0")
      then Some (PyStr.digit_val a) else None
  | String a (String b EmptyString) =>
      if Ascii.eqb a "3" && PyStr.is_digit b && (PyStr.digit_val b <=? 1)
      then Some (30 + PyStr.digit_val b)
      else if (Ascii.eqb a "1" || Ascii.eqb a "2") && PyStr.is_digit b
      then Some (10 * PyStr.digit_val a + PyStr.digit_val b)
      else if (Ascii.eqb a "0" || Ascii.eqb a " ")
              && PyStr.is_digit b && negb (Ascii.eqb b "0")
      then Some (PyStr.digit_val b)
      else None
  | _ => None
  end.

(** The year that two digits stand for, by the POSIX pivot: 69..99 are
    1969..1999 and 00..68 are 2000..2068. *)
Definition pivot (yy : Z) : Z := if yy <=? 68 then yy + 2000 else yy + 1900.

(** [%y]: [\d\d] *)
Definition parse_year (t : string) : option Z :=
  match t with
  | String a (String b EmptyString) =>
      if PyStr.is_digit a && PyStr.is_digit b
      then Some (pivot (10 * PyStr.digit_val a + PyStr.digit_val b))
      else None
  | _ => None
  end.

(** [%a]: an abbreviated day name, in any case; its value is not used. *)
Definition parse_day_name (t : string) : bool :=
  existsb (String.eqb (PyStr.lower t))
          ["mon"; "tue"; "wed"; "thu"; "fri"; "sat"; "sun"].

(** The fields that the pattern of ['%a %m/%d/%y'] captures. *)
Definition parse_fields (s : string) : option (Z * Z * Z) :=
  match s with
  | String c1 (String c2 (String c3 rest)) =>
      if parse_day_name (String c1 (String c2 (String c3 EmptyString)))
         && PyStr.starts_space rest && negb (String.eqb rest EmptyString)
      then
        '(mt, rest1) ← cut_slash (PyStr.lstrip rest);
        '(dt, yt) ← cut_slash rest1;
        m ← parse_month mt;
        d ← parse_day dt;
        y ← parse_year yt;
        Some (y, m, d)
      else None
  | _ => None
  end.

(** [datetime.strptime(s, '%a %m/%d/%y')], as the ordinal of its date. *)
Definition strptime (s : string) : result Z :=
  match parse_fields s with
  | Some (y, m, d) =>
      if (1 <=? m) && (m <=? 12) && (1 <=? d) && (d <=? _days_in_month y m)
      then Ok (_ymd2ord y m d)
      else Raise ValueError
  | None => Raise ValueError
  end.

(** The dates that the two-digit year of the format can denote. *)
Definition window_lo : Z := Eval vm_compute in _ymd2ord 1969 1 1.
Definition window_hi : Z := Eval vm_compute in _ymd2ord 2068 12 31.

Definition in_window (d : Z) : Prop := window_lo <= d <= window_hi.

(** *** Checks that are run over a finite range *)

(** [P] holds of the [n] integers from [lo] on. *)
Fixpoint all_from (P : Z -> bool) (lo : Z) (n : nat) : bool :=
  match n with
  | O => true
  | S n' => P lo && all_from P (lo + 1) n'
  end.

Definition good_digit (k : Z) : bool :=
  let c := digit_char k in
  PyStr.is_digit c && negb (PyStr.is_space c) && negb (Ascii.eqb c "/")
  && (PyStr.digit_val c =? k).

(** The ordinal [n] is a day of 1969..2068 whose fields give [n] back. *)
Definition good_ordinal (n : Z) : bool :=
  let '(y, m, d) := _ord2ymd n in
  (1969 <=? y) && (y <=? 2068) && (1 <=? m) && (m <=? 12)
  && (1 <=? d) && (d <=? _days_in_month y m) && (d <=? 31)
  && (_ymd2ord y m d =? n) && (pivot (y mod 100) =? y).

(** The first and the last day of a month lie in the window. *)
Definition good_month (y m : Z) : bool :=
  (window_lo <=? _ymd2ord y m 1)
  && (_ymd2ord y m (_days_in_month y m) <=? window_hi).

End PyDate.

(** ** Tables: [pandas.DataFrame] *)

Module Frame.

(** The value of a cell: a [str], an [int], or the missing value
    ([None], [NaN]). *)
Inductive cell : Type :=
  | CStr (s : string)
  | CInt (n : Z)
  | CNaN.

#[global] Instance cell_eq_dec : EqDecision cell.
Proof. solve_decision. Defined.

Abbreviation row := (gmap string cell).

Record DataFrame : Type := {
  columns : list string;
  rows : list row
}.

(** [pd.DataFrame()] *)
Definition empty_frame : DataFrame := {| columns := []; rows := [] |}.

(** [df.empty]: some axis has length 0. *)
Definition empty (df : DataFrame) : bool :=
  match rows df, columns df with
  | [], _ | _, [] => true
  | _, _ => false
  end.

(** [pd.DataFrame(records)] for a list of dicts that all have the keys
    [cols], in that order. *)
Definition of_records (cols : list string) (records : list row) : DataFrame :=
  match records with
  | [] => empty_frame
  | _ => {| columns := cols; rows := records |}
  end.

(** [row[col]] *)
Definition get (r : row) (col : string) : result cell :=
  match r !! col with
  | Some c => Ok c
  | None => Raise KeyError
  end.

Definition has_column (df : DataFrame) (col : string) : bool :=
  bool_decide (col ∈ columns df).

(** [df[col]], as the list of its values. *)
Definition column (df : DataFrame) (col : string) : result (list cell) :=
  if has_column df col
  then Ok (map (fun r : row => default CNaN (r !! col)) (rows df))
  else Raise KeyError.

(** A row extended with the missing value in the columns it lacks. *)
Definition fill (cols : list string) (r : row) : row :=
  foldr (fun c (acc : row) =>
           match acc !! c with
           | Some _ => acc
           | None => <[c := CNaN]> acc
           end) r cols.

(** [pd.concat([a, b], ignore_index=True)] *)
Definition concat (a b : DataFrame) : DataFrame :=
  let cols :=
    (columns a ++ filter (fun c => c ∉ columns a) (columns b))%list in
  {| columns := cols; rows := map (fill cols) (rows a ++ rows b)%list |}.

(** [df[col] = range(1, len(df) + 1)] *)
Definition number_rows (col : string) (df : DataFrame) : DataFrame :=
  {| columns := if has_column df col then columns df else (columns df ++ [col])%list;
     rows := imap (fun i (r : row) => <[col := CInt (Z.of_nat i + 1)]> r)
                  (rows df) |}.

(** Every row has a cell in each column and in no other. *)
Definition well_formed (df : DataFrame) : Prop :=
  Forall (fun r : row => dom r = list_to_set (columns df)) (rows df).

End Frame.

Import Frame.

(** ** The document analyzer *)

(** A task dict; a field is [None] when the key is absent. *)
Record Task : Type := {
  task_name : option string;
  task_description : option string;
  task_priority : option string;
  estimated_duration : option Z
}.

(** The part of the project-info dict that the planner reads. *)
Record ProjectInfo : Type := {
  info_name : option string;
  info_tasks : option (list Task)
}.

Module DocumentAnalyzer.

(** The state of [random]: the raw draws still to come. *)
Definition tape : Type := list Z.

Definition draw (t : tape) : Z * tape :=
  match t with
  | x :: t' => (x, t')
  | [] => (0, [])
  end.

(** [random.choice(options)] *)
Definition random_choice (options : list string) (t : tape) : string * tape :=
  let '(x, t') := draw t in
  (nth (Z.to_nat (x mod Z.of_nat (length options))) options "", t').

(** [random.randint(a, b)] *)
Definition random_randint (a b : Z) (t : tape) : Z * tape :=
  let '(x, t') := draw t in
  (a + x mod (b - a + 1), t').

Definition task_keywords : list string :=
  ["implement"; "develop"; "create"; "build"; "design"; "test"; "deploy";
   "configure"; "setup"; "install"; "analyze"; "review"; "prepare";
   "execute"; "complete"; "finish"; "deliver"; "validate"; "verify"].

Definition next_is_space (s : string) : bool :=
  match s with
  | EmptyString => false
  | String c _ => PyStr.is_space c
  end.

(** [re.sub(r'\s+', ' ', text)] *)
Fixpoint collapse_spaces (s : string) : string :=
  match s with
  | EmptyString => EmptyString
  | String c s' =>
      if PyStr.is_space c then
        if next_is_space s' then collapse_spaces s'
        else String " " (collapse_spaces s')
      else String c (collapse_spaces s')
  end.

Definition is_kept_punctuation (c : ascii) : bool :=
  existsb (Ascii.eqb c) (list_ascii_of_string ".,!?;:-()").

(** [re.sub(r'[^\w\s\.,!?;:\-()]', '', text)] *)
Fixpoint drop_special (s : string) : string :=
  match s with
  | EmptyString => EmptyString
  | String c s' =>
      if PyStr.is_word c || PyStr.is_space c || is_kept_punctuation c
      then String c (drop_special s')
      else drop_special s'
  end.


Definition _clean_text (text : string) : string :=
  PyStr.strip (drop_special (collapse_spaces text)).

(** [re.sub(r'[^\w\s]', ' ', s)] *)
Fixpoint blank_punctuation (s : string) : string :=
  match s with
  | EmptyString => EmptyString
  | String c s' =>
      String (if PyStr.is_word c || PyStr.is_space c then c else " "%char)
             (blank_punctuation s')
  end.

(** The position of the first word that contains [keyword]. *)
Fixpoint find_keyword (keyword : string) (words : list string) (i : Z)
  : option Z :=
  match words with
  | [] => None
  | word :: words' =>
      if PyStr.contains (PyStr.lower keyword) (PyStr.lower word) then Some i
      else find_keyword keyword words' (i + 1)
  end.

(** [l[a:b]] for [0 <= a] *)
Definition slice {A : Type} (l : list A) (a b : Z) : list A :=
  take (Z.to_nat (b - a)) (drop (Z.to_nat a) l).

Definition _generate_task_name (sentence keyword : string) : option string :=
  let words := PyStr.split sentence in
  match find_keyword keyword words 0 with
  | None => None
  | Some keyword_index =>
      let start_idx := Z.max 0 (keyword_index - 1) in
      let end_idx := Z.min (Z.of_nat (length words)) (keyword_index + 4) in
      let task_words := slice words start_idx end_idx in
      let task_name := PyStr.join " " task_words in
      let task_name := blank_punctuation task_name in
      let task_name := PyStr.join " " (PyStr.split task_name) in
      if String.eqb task_name EmptyString then None
      else Some (PyStr.title task_name)
  end.

Definition high_priority_words : list string :=
  ["critical"; "urgent"; "important"; "key"; "essential"].

Definition _estimate_priority (sentence : string) (t : tape) : string * tape :=
  let sentence_lower := PyStr.lower sentence in
  if existsb (fun word => PyStr.contains word sentence_lower)
             high_priority_words
  then ("High", t)
  else random_choice ["Medium"; "Low"] t.

(** The longest run of digits at the head of [s], and what follows it. *)
Fixpoint span_digits (s : string) : string * string :=
  match s with
  | EmptyString => (EmptyString, EmptyString)
  | String c s' =>
      if PyStr.is_digit c then
        let '(ds, rest) := span_digits s' in (String c ds, rest)
      else (EmptyString, s)
  end.

(** A match of [(\d+)\s*(unit|units)] at the head of [s]: its first group. *)
Definition match_number_unit (unit : string) (s : string) : option string :=
  let '(ds, rest) := span_digits s in
  if String.eqb ds EmptyString then None
  else if PyStr.startswith unit (PyStr.lstrip rest) then Some ds
  else None.

(** [re.findall(r'(\d+)\s*(unit|units)', s)[0]]: the leftmost match; its
    second group is [unit], the first alternative. *)
Fixpoint find_number_unit (unit : string) (s : string)
  : option (string * string) :=
  match match_number_unit unit s with
  | Some ds => Some (ds, unit)
  | None =>
      match s with
      | EmptyString => None
      | String _ s' => find_number_unit unit s'
      end
  end.

Definition duration_units : list string := ["day"; "week"; "month"].

Fixpoint first_duration (units : list string) (s : string)
  : option (string * string) :=
  match units with
  | [] => None
  | u :: units' =>
      match find_number_unit u s with
      | Some m => Some m
      | None => first_duration units' s
      end
  end.

Definition _estimate_duration (sentence : string) (t : tape) : Z * tape :=
  match first_duration duration_units (PyStr.lower sentence) with
  | Some (num, unit) =>
      let days := PyStr.digits_val 0 num in
      let days :=
        if PyStr.contains "week" unit then days * 7
        else if PyStr.contains "month" unit then days * 30
        else days in
      (Z.min days 30, t)
  | None => random_randint 1 10 t
  end.

Definition _generate_default_tasks (text : string) : list Task :=
  let task n d p e :=
    {| task_name := Some n; task_description := Some d;
       task_priority := Some p; estimated_duration := Some e |} in
  [ task "Project Planning" "Plan project scope and timeline" "High" 3;
    task "Requirements Analysis" "Analyze project requirements" "High" 5;
    task "System Design" "Design system architecture" "Medium" 7;
    task "Development Phase 1" "Initial development phase" "High" 10;
    task "Testing" "Test system functionality" "High" 5;
    task "Deployment" "Deploy to production" "Medium" 2 ].

(** The first keyword for which the test of the inner loop holds. *)
Definition matching_keyword (sentence : string) : option string :=
  let sentence_lower := PyStr.lower sentence in
  List.find (fun keyword =>
               PyStr.contains keyword sentence_lower
               && (3 <? Z.of_nat (length (PyStr.split sentence))))
            task_keywords.

(** The loop over the sentences: the tasks found, in order. *)
Fixpoint scan_tasks (sentences : list string) (t : tape) : list Task * tape :=
  match sentences with
  | [] => ([], t)
  | sentence :: rest =>
      match matching_keyword sentence with
      | Some keyword =>
          match _generate_task_name sentence keyword with
          | Some name =>
              if PyStr.len name <? 100 then
                let '(priority, t1) := _estimate_priority sentence t in
                let '(duration, t2) := _estimate_duration sentence t1 in
                let '(tasks, t3) := scan_tasks rest t2 in
                ({| task_name := Some name;
                    task_description := Some (PyStr.take 200 sentence);
                    task_priority := Some priority;
                    estimated_duration := Some duration |} :: tasks, t3)
              else scan_tasks rest t
          | None => scan_tasks rest t
          end
      | None => scan_tasks rest t
      end
  end.

Definition phase_keywords : list string :=
  ["phase"; "stage"; "milestone"; "iteration"; "sprint"; "release";
   "planning"; "analysis"; "design"; "development"; "testing"; "deployment"].

Definition _extract_phase_name (sentence keyword : string) : option string :=
  let words := PyStr.split sentence in
  match find_keyword keyword words 0 with
  | None => None
  | Some i =>
      let start := Z.max 0 (i - 2) in
      let stop := Z.min (Z.of_nat (length words)) (i + 3) in
      let phase_words := slice words start stop in
      let phase_name := PyStr.join " " phase_words in
      let phase_name := blank_punctuation phase_name in
      Some (PyStr.title (PyStr.join " " (PyStr.split phase_name)))
  end.

(** The first phase keyword that the sentence contains. *)
Definition matching_phase_keyword (sentence : string) : option string :=
  let sentence_lower := PyStr.lower sentence in
  List.find (fun keyword => PyStr.contains keyword sentence_lower)
            phase_keywords.

(** The loop of [_extract_phases] over the sentences: the names found. *)
Fixpoint scan_phases (sentences : list string) : list string :=
  match sentences with
  | [] => []
  | sentence :: rest =>
      match matching_phase_keyword sentence with
      | Some keyword =>
          match _extract_phase_name sentence keyword with
          | Some phase_name =>
              if String.eqb phase_name EmptyString then scan_phases rest
              else phase_name :: scan_phases rest
          | None => scan_phases rest
          end
      | None => scan_phases rest
      end
  end.

(** [list(dict.fromkeys(l))]: a key enters the dict when it is first met. *)
Definition fromkeys (l : list string) : list string :=
  fold_left (fun keys x =>
               if bool_decide (x ∈ keys) then keys else (keys ++ [x])%list)
            l [].


Section Analyzer.

(** [nltk.sent_tokenize] *)
Variable sent_tokenize : string -> list string.

Definition _extract_tasks (text : string) (t : tape) : list Task * tape :=
  let sentences := sent_tokenize text in
  let '(tasks, t') := scan_tasks sentences t in
  let tasks :=
    match tasks with
    | [] => _generate_default_tasks text
    | _ => tasks
    end in
  (take 15 tasks, t').

Definition _extract_phases (text : string) : list string :=
  let sentences := sent_tokenize text in
  take 5 (fromkeys (scan_phases sentences)).

(** The ['name'] and ['tasks'] entries of the dict that
    [extract_project_info] builds; the other entries draw nothing from
    [random]. *)
Definition extract_project_info (text project_name : string) (t : tape)
  : ProjectInfo * tape :=
  let text := _clean_text text in
  let '(tasks, t') := _extract_tasks text t in
  ({| info_name := Some project_name; info_tasks := Some tasks |}, t').

End Analyzer.

End DocumentAnalyzer.

(** ** The project planner *)

Module ProjectPlanner.

Record planner : Type := {
  task_modes : list string;
  default_start_date : Z
}.

(** [ProjectPlanner()], built on the day [today]. *)
Definition init (today : Z) : planner :=
  {| task_modes := ["Auto Scheduled"; "Manually Scheduled"];
     default_start_date := today |}.

(** The keys of a row dict, in the order in which the program writes them. *)
Definition plan_columns : list string :=
  ["ID"; "Name"; "Active"; "Task Mode"; "Duration"; "Start"; "Finish";
   "Predecessors"; "Outline Level"; "Notes"].

Definition plan_row (id : Z) (name active mode duration start finish
                     predecessors : string) (level : Z) (notes : string)
  : row :=
  {[ "ID" := CInt id; "Name" := CStr name; "Active" := CStr active;
     "Task Mode" := CStr mode; "Duration" := CStr duration;
     "Start" := CStr start; "Finish" := CStr finish;
     "Predecessors" := CStr predecessors; "Outline Level" := CInt level;
     "Notes" := CStr notes ]}.

(** [f"{n} days"] *)
Definition days_text (n : Z) : string := PyStr.str_int n +:+ " days".

(** [task['name']] *)
Definition name_of (task : Task) : result string :=
  match task_name task with
  | Some n => Ok n
  | None => Raise KeyError
  end.

(** [datetime.strptime(x, '%a %m/%d/%y')] for the value of a cell. *)
Definition strptime_cell (c : cell) : result Z :=
  match c with
  | CStr s => PyDate.strptime s
  | _ => Raise TypeError
  end.

(** [int(d.split()[0])] when ['days' in d], for the value [d] of a cell. *)
Definition cell_days (c : cell) : result (option Z) :=
  match c with
  | CStr d =>
      if PyStr.contains "days" d then
        match PyStr.split d with
        | w :: _ => n ← PyStr.int w; Ok (Some n)
        | [] => Raise IndexError
        end
      else Ok None
  | _ => Raise TypeError
  end.

(** [min(l)] and [max(l)] *)
Definition py_min (l : list Z) : result Z :=
  match l with
  | [] => Raise ValueError
  | x :: l' => Ok (foldr Z.min x l')
  end.

Definition py_max (l : list Z) : result Z :=
  match l with
  | [] => Raise ValueError
  | x :: l' => Ok (foldr Z.max x l')
  end.

Definition sum_days (l : list (option Z)) : Z :=
  foldr (fun o acc => default 0 o + acc) 0 l.

Definition _determine_outline_level (task_name : string) : Z :=
  let task_lower := PyStr.lower task_name in
  let any_in words := existsb (fun word => PyStr.contains word task_lower) words in
  if any_in ["phase"; "stage"; "planning"; "design"; "development";
             "testing"; "deployment"] then 1
  else if any_in ["setup"; "configure"; "create"; "implement"] then 2
  else if any_in ["review"; "validate"; "test"; "document"] then 3
  else 2.

Definition _generate_task_notes (task : Task) : string :=
  let priority := default "Medium" (task_priority task) in
  let description := default "" (task_description task) in
  let description :=
    if 100 <? PyStr.len description
    then PyStr.take 97 description +:+ "..."
    else description in
  "Priority: " +:+ priority +:+ ". " +:+ description.

Definition roadmap_notes : string :=
  "This roadmap is intended to guide the project execution.".

Definition _create_summary_row (project_name : string) (df : DataFrame)
  : result DataFrame :=
  if Frame.empty df then Ok empty_frame
  else
    durations ← column df "Duration";
    days ← rmap cell_days durations;
    let total_duration := sum_days days in
    starts ← column df "Start";
    start_dates ← rmap strptime_cell starts;
    finishes ← column df "Finish";
    finish_dates ← rmap strptime_cell finishes;
    first ← py_min start_dates;
    last ← py_max finish_dates;
    let project_start := PyDate.strftime first in
    let project_finish := PyDate.strftime last in
    Ok {| columns := plan_columns;
          rows := [plan_row 0 project_name "Yes" "Auto Scheduled"
                     (days_text total_duration) project_start project_finish
                     "" 0 roadmap_notes]
       |}.

Definition _create_default_plan (self : planner) : result DataFrame :=
  let today := default_start_date self in
  finish1 ← PyDate.add_days today 30;
  finish2 ← PyDate.add_days today 5;
  Ok (of_records plan_columns
        [ plan_row 1 "Sample Project" "Yes" "Auto Scheduled" "30 days"
            (PyDate.strftime today) (PyDate.strftime finish1) "" 1
            "Default project plan generated";
          plan_row 2 "Planning Phase" "Yes" "Auto Scheduled" "5 days"
            (PyDate.strftime today) (PyDate.strftime finish2) "" 2
            "Project planning and requirements gathering" ]).

(** One pass of the loop of [update_plan_dates] over a row. *)
Definition shift_row (date_diff : Z) (r : row) : result row :=
  start ← Frame.get r "Start";
  old_start ← strptime_cell start;
  finish ← Frame.get r "Finish";
  old_finish ← strptime_cell finish;
  new_start ← PyDate.add_days old_start date_diff;
  new_finish ← PyDate.add_days old_finish date_diff;
  Ok (<["Finish" := CStr (PyDate.strftime new_finish)]>
        (<["Start" := CStr (PyDate.strftime new_start)]> r)).

(** The loop of [update_plan_dates]: the rows of the table when the loop
    ends, and the exception that ended it, if any. The table is updated in
    place, so the rows before the failing one stay shifted. *)
Fixpoint shift_rows (date_diff : Z) (rs : list row) : list row * option exc :=
  match rs with
  | [] => ([], None)
  | r :: rest =>
      match shift_row date_diff r with
      | Ok r' =>
          let '(rest', e) := shift_rows date_diff rest in (r' :: rest', e)
      | Raise e => (r :: rest, Some e)
      end
  end.

Definition update_plan_dates (self : planner) (df : DataFrame)
                             (new_start_date : Z) : DataFrame :=
  if Frame.empty df then df
  else
    match rows df with
    | [] => df
    | first :: _ =>
        match start ← Frame.get first "Start"; strptime_cell start with
        | Ok current_start =>
            let date_diff := new_start_date - current_start in
            {| columns := columns df;
               rows := fst (shift_rows date_diff (rows df)) |}
        | Raise _ => df
        end
    end.

Definition is_missing (c : cell) : bool :=
  match c with
  | CNaN => true
  | _ => false
  end.

(** [repr] of a list of column names. *)
Definition repr_names (l : list string) : string :=
  "[" +:+ PyStr.join ", " (map (fun c => "'" +:+ c +:+ "'") l) +:+ "]".

(** The column [col], if the table has it, read under the date format. *)
Definition check_dates (df : DataFrame) (col : string) : result unit :=
  if has_column df col then
    values ← column df col;
    _ ← rmap strptime_cell values;
    Ok tt
  else Ok tt.

Definition validate_plan (self : planner) (df : DataFrame)
  : result (list string) :=
  if Frame.empty df then Ok ["Project plan is empty"]
  else
    let issues := [] in
    let required_cols := ["ID"; "Name"; "Duration"; "Start"; "Finish"] in
    let missing_cols :=
      filter (fun col => has_column df col = false) required_cols in
    let issues :=
      match missing_cols with
      | [] => issues
      | _ => (issues ++ ["Missing columns: " +:+ repr_names missing_cols])%list
      end in
    names ← column df "Name";
    let issues :=
      if existsb is_missing names
      then (issues ++ ["Some tasks have empty names"])%list
      else issues in
    match _ ← check_dates df "Start"; check_dates df "Finish" with
    | Ok _ => Ok issues
    | Raise ValueError => Ok (issues ++ ["Invalid date format detected"])%list
    | Raise e => Raise e
    end.

Section Generation.

(** The builtin [hash] on strings, which is seeded per process. *)
Variable hash : string -> Z.

Definition _calculate_predecessors (task_id : Z) (task_index : nat)
                                   (tasks : list Task) : result string :=
  match task_index with
  | O => Ok ""
  | S _ =>
      match tasks !! task_index with
      | Some task =>
          name ← name_of task;
          if hash name mod 10 <? 6 then Ok (PyStr.str_int (task_id - 1))
          else Ok ""
      | None => Raise IndexError
      end
  end.

(** The loop of [generate_project_plan] from the task at position [i] on,
    [current_date] being the running date: the rows it appends. *)
Fixpoint plan_rows (all_tasks : list Task) (i : nat) (current_date : Z)
                   (tasks : list Task) : result (list row) :=
  match tasks with
  | [] => Ok []
  | task :: rest =>
      let task_id := Z.of_nat i + 1 in
      let duration := default 5 (estimated_duration task) in
      let start_date := current_date in
      finish_date ← PyDate.add_days start_date duration;
      predecessors ← _calculate_predecessors task_id i all_tasks;
      name ← name_of task;
      let outline_level := _determine_outline_level name in
      let task_row :=
        plan_row task_id name "Yes" "Auto Scheduled" (days_text duration)
          (PyDate.strftime start_date) (PyDate.strftime finish_date)
          predecessors outline_level (_generate_task_notes task) in
      current_date ← PyDate.add_days start_date (Z.max 1 (duration / 2));
      more ← plan_rows all_tasks (S i) current_date rest;
      Ok (task_row :: more)
  end.

(** The body of the [try] block of [generate_project_plan]. *)
Definition plan_from_tasks (self : planner) (project_info : ProjectInfo)
  : result DataFrame :=
  let tasks := default [] (info_tasks project_info) in
  let project_name := default "Untitled Project" (info_name project_info) in
  plan_data ← plan_rows tasks 0 (default_start_date self) tasks;
  let df := of_records plan_columns plan_data in
  summary_row ← _create_summary_row project_name df;
  let df := Frame.concat summary_row df in
  Ok (number_rows "ID" df).

Definition generate_project_plan (self : planner) (project_info : ProjectInfo)
  : result DataFrame :=
  match plan_from_tasks self project_info with
  | Ok df => Ok df
  | Raise _ => _create_default_plan self
  end.

End Generation.

(** *** Reading a row back *)

(** The row shows the start date [s], the finish date [s + n] and the
    duration [n]. *)
Definition rendered_from (r : row) (s n : Z) : Prop :=
  r !! "Start" = Some (CStr (PyDate.strftime s))
  /\ r !! "Finish" = Some (CStr (PyDate.strftime (s + n)))
  /\ r !! "Duration" = Some (CStr (days_text n)).

(** The summary row is the one at outline level 0. *)
Definition is_summary (r : row) : bool :=
  bool_decide (r !! "Outline Level" = Some (CInt 0)).

Definition start_of (r : row) : result Z :=
  c ← Frame.get r "Start"; strptime_cell c.

Definition finish_of (r : row) : result Z :=
  c ← Frame.get r "Finish"; strptime_cell c.

(** The number of days that the ["<N> days"] text of the row stands for. *)
Definition duration_of (r : row) : result Z :=
  c ← Frame.get r "Duration";
  d ← cell_days c;
  match d with
  | Some n => Ok n
  | None => Raise ValueError
  end.

(** The row [r] after its dates [s] and [f] are moved by [diff] days. *)
Definition moved (diff : Z) (r : row) (s f : Z) : row :=
  <["Finish" := CStr (PyDate.strftime (f + diff))]>
    (<["Start" := CStr (PyDate.strftime (s + diff))]> r).

(** The dates of [r] read back, and stay in the window when moved. *)
Definition movable (diff : Z) (r : row) : Prop :=
  exists s f, start_of r = Ok s /\ finish_of r = Ok f
    /\ PyDate.in_window (s + diff) /\ PyDate.in_window (f + diff).

Definition in_windowb (d : Z) : bool :=
  (PyDate.window_lo <=? d) && (d <=? PyDate.window_hi).

Definition movableb (diff : Z) (r : row) : bool :=
  match start_of r, finish_of r with
  | Ok s, Ok f => in_windowb (s + diff) && in_windowb (f + diff)
  | _, _ => false
  end.

(** The task has a name, and a duration of 0 to 30 days. *)
Definition schedulable (task : Task) : Prop :=
  is_Some (task_name task)
  /\ 0 <= default 5 (estimated_duration task) <= 30.

(** Every column of a plan has a cell in the row. *)
Definition complete (r : row) : Prop :=
  forall c, c ∈ plan_columns -> is_Some (r !! c).

(** The rows show the dates that the loop of [generate_project_plan] goes
    through from the running date [cur] on. *)
Inductive staggered : Z -> list row -> Prop :=
  | staggered_nil cur : staggered cur []
  | staggered_cons cur n r rs :
      rendered_from r cur n ->
      is_summary r = false ->
      staggered (cur + Z.max 1 (n / 2)) rs ->
      staggered cur (r :: rs).

End ProjectPlanner.

(** ** The utilities *)

Module Utils.

Definition newline : ascii := ascii_of_nat 10.

Definition next_is_newline (s : string) : bool :=
  match s with
  | EmptyString => false
  | String c _ => Ascii.eqb c newline
  end.

(** [re.sub(r'\n+', '\n', text)] *)
Fixpoint collapse_newlines (s : string) : string :=
  match s with
  | EmptyString => EmptyString
  | String c s' =>
      if Ascii.eqb c newline && next_is_newline s' then collapse_newlines s'
      else String c (collapse_newlines s')
  end.

Definition clean_text (text : string) : string :=
  let text := collapse_newlines text in
  let text := DocumentAnalyzer.collapse_spaces text in
  PyStr.strip text.

(** [validate_project_data]: every required column is there. *)
Definition validate_project_data (df : DataFrame) : bool :=
  let required_columns :=
    ["ID"; "Name"; "Active"; "Task Mode"; "Duration"; "Start"; "Finish"] in
  let missing_columns :=
    filter (fun col => has_column df col = false) required_columns in
  match missing_columns with
  | [] => true
  | _ => false
  end.

End Utils.

(** ** The timeline of the application *)

Module App.

Import ProjectPlanner.

(** An entry of [timeline_data]. *)
Record timeline_item : Type := {
  item_task : cell;
  item_start : Z;
  item_finish : Z;
  item_duration : Z;
  item_level : cell
}.

(** [row['ID'] == 0] *)
Definition is_zero (c : cell) : bool :=
  match c with
  | CInt 0 => true
  | _ => false
  end.

(** The body of the inner [try] of [display_project_timeline]. *)
Definition timeline_item_of (r : row) : result timeline_item :=
  start ← Frame.get r "Start";
  start_date ← strptime_cell start;
  finish ← Frame.get r "Finish";
  finish_date ← strptime_cell finish;
  name ← Frame.get r "Name";
  Ok {| item_task := name;
        item_start := start_date;
        item_finish := finish_date;
        item_duration := finish_date - start_date;
        item_level := default (CInt 1) (r !! "Outline Level") |}.

(** The loop of [display_project_timeline]: the entries that are charted.
    A row whose ID is 0 is skipped, and so is a row for which the inner
    [try] raises; a row without an ID ends the loop with its exception. *)
Fixpoint timeline_data (rs : list row) : result (list timeline_item) :=
  match rs with
  | [] => Ok []
  | r :: rest =>
      id ← Frame.get r "ID";
      if is_zero id then timeline_data rest
      else
        match timeline_item_of r with
        | Ok item => items ← timeline_data rest; Ok (item :: items)
        | Raise _ => timeline_data rest
        end
  end.

End App.

(** ** Sample inputs *)

Module Examples.

Import PyStr PyDate DocumentAnalyzer ProjectPlanner.

Definition hash0 (s : string) : Z := 0.

Definition planner_2026 : planner := init (_ymd2ord 2026 11 3).
Definition planner_2068 : planner := init (_ymd2ord 2068 12 20).

Definition default_info : ProjectInfo :=
  {| info_name := Some "Auth";
     info_tasks := Some (_generate_default_tasks "") |}.

Definition empty_info : ProjectInfo :=
  {| info_name := Some "Auth"; info_tasks := Some [] |}.

Definition month_task (name : string) : Task :=
  {| task_name := Some name; task_description := Some "";
     task_priority := Some "High"; estimated_duration := Some 30 |}.

Definition two_months_info : ProjectInfo :=
  {| info_name := Some "Auth";
     info_tasks := Some [month_task "Deployment"; month_task "Review"] |}.

Definition plan_of (r : result DataFrame) : DataFrame :=
  match r with
  | Ok df => df
  | Raise _ => empty_frame
  end.

Definition row_at (df : DataFrame) (i : nat) : row :=
  default ∅ (rows df !! i).

Definition default_plan_2026 : DataFrame :=
  plan_of (generate_project_plan hash0 planner_2026 default_info).

Definition two_months_plan_2068 : DataFrame :=
  plan_of (generate_project_plan hash0 planner_2068 two_months_info).

Definition ten_day_row : row :=
  plan_row 1 "Build" "Yes" "Auto Scheduled" "10 days" "Mon 01/01/24"
    "Thu 01/11/24" "" 2 "".

Definition undated_row : row :=
  plan_row 2 "Review" "Yes" "Auto Scheduled" "5 days" "TBD" "Thu 01/11/24"
    "1" 3 "".

Definition one_row_plan : DataFrame :=
  {| columns := plan_columns; rows := [ten_day_row] |}.

Definition half_dated_plan : DataFrame :=
  {| columns := plan_columns; rows := [ten_day_row; undated_row] |}.

Definition nameless_plan : DataFrame :=
  {| columns := ["ID"; "Duration"; "Start"; "Finish"];
     rows := [ {[ "ID" := CInt 1; "Duration" := CStr "10 days";
                  "Start" := CStr "Mon 01/01/24";
                  "Finish" := CStr "Thu 01/11/24" ]} ] |}.

Definition nameless_task : Task :=
  {| task_name := None; task_description := None;
     task_priority := None; estimated_duration := None |}.

Definition nameless_info : ProjectInfo :=
  {| info_name := Some "Auth";
     info_tasks := Some [month_task "Deployment"; nameless_task] |}.

Definition undated_first_plan : DataFrame :=
  {| columns := plan_columns; rows := [undated_row; ten_day_row] |}.

Definition ends_sentence (c : ascii) : bool :=
  existsb (Ascii.eqb c) (list_ascii_of_string ".!?").

Fixpoint sentence_pieces (s : string) : list string :=
  match s with
  | EmptyString => []
  | String c s' =>
      if ends_sentence c && starts_space s'
      then String c EmptyString :: sentence_pieces s'
      else match sentence_pieces s' with
           | w :: ws => String c w :: ws
           | [] => [String c EmptyString]
           end
  end.

(** A tokenizer that ends a sentence at a full stop, an exclamation mark
    or a question mark that whitespace or the end of the text follows. *)
Definition simple_sent_tokenize (text : string) : list string :=
  map lstrip (sentence_pieces text).

Definition login_text : string :=
  "We will implement the login module in 5 days. Then we will test the module for 2 days.".

Definition login_sentence_1 : string :=
  "We will implement the login module in 5 days.".
Definition login_sentence_2 : string :=
  "Then we will test the module for 2 days.".

End Examples.

(** An equation between closed terms, checked by evaluating both sides on
    the virtual machine of the kernel. *)
Ltac evaluate :=
  lazymatch goal with
  | |- @eq ?A _ ?b => vm_cast_no_check (@eq_refl A b)
  | |- _ => vm_compute; reflexivity
  end.

Ltac conjuncts := repeat lazymatch goal with |- _ /\ _ => split end.

(** * Facts about the string functions *)

Section StringFacts.

Import PyStr.

Lemma digit_val_bounds c : is_digit c = true -> 0 <= digit_val c <= 9.
Proof.
  unfold is_digit, digit_val. intros H.
  apply andb_true_iff in H as [H1 H2]. lia.
Qed.

Lemma uint_chars_are_digits d :
  all_chars is_digit (NilEmpty.string_of_uint d) = true.
Proof. induction d; simpl; auto. Qed.

Lemma all_chars_weaken (p q : ascii -> bool) s :
  (forall c, p c = true -> q c = true) ->
  all_chars p s = true -> all_chars q s = true.
Proof.
  intros Hpq. induction s as [|c s IH]; simpl; [done|].
  intros [Hc Hs]%andb_true_iff. rewrite (Hpq c Hc). simpl. auto.
Qed.

Lemma digit_no_space c : is_digit c = true -> no_space c = true.
Proof.
  unfold is_digit, no_space, is_space.
  intros [H1 H2]%andb_true_iff.
  apply negb_true_iff, orb_false_iff. split; apply andb_false_iff; lia.
Qed.

Lemma str_int_nonempty n : str_int n <> EmptyString.
Proof.
  unfold str_int. destruct n as [|p|p]; simpl; try discriminate.
  unfold NilZero.string_of_uint.
  pose proof (DecimalPos.Unsigned.to_uint_nonnil p) as Hp.
  destruct (Pos.to_uint p); try congruence; discriminate.
Qed.

Lemma nilzero_uint_chars u :
  all_chars is_digit (NilZero.string_of_uint u) = true.
Proof. destruct u; try apply uint_chars_are_digits. reflexivity. Qed.

Lemma str_int_no_space n : all_chars no_space (str_int n) = true.
Proof.
  unfold str_int. destruct n as [|p|p]; simpl; try reflexivity.
  - eapply all_chars_weaken; [apply digit_no_space|apply nilzero_uint_chars].
  - eapply all_chars_weaken; [apply digit_no_space|apply nilzero_uint_chars].
Qed.

Lemma split_word_then_space a rest :
  all_chars no_space a = true -> a <> EmptyString ->
  split (a +:+ String " " rest) = a :: split rest.
Proof.
  induction a as [|c a IH]; [done|]. intros [Hc Ha]%andb_true_iff _.
  apply negb_true_iff in Hc. simpl. rewrite Hc.
  destruct a as [|c' a'].
  - reflexivity.
  - rewrite IH by done. simpl in Ha |- *.
    apply andb_true_iff in Ha as [Hc' _]. apply negb_true_iff in Hc'.
    by rewrite Hc'.
Qed.

Lemma contains_append p a b :
  contains p b = true -> contains p (a +:+ b) = true.
Proof.
  intros Hb. induction a as [|c a IH]; simpl; [done|].
  rewrite IH. apply orb_true_r.
Qed.

Lemma lstrip_no_space s : all_chars no_space s = true -> lstrip s = s.
Proof.
  destruct s as [|c s]; simpl; [done|].
  intros [Hc _]%andb_true_iff. apply negb_true_iff in Hc. by rewrite Hc.
Qed.

Lemma rstrip_no_space s : all_chars no_space s = true -> rstrip s = s.
Proof.
  induction s as [|c s IH]; simpl; [done|].
  intros [Hc Hs]%andb_true_iff. apply negb_true_iff in Hc.
  rewrite IH by done. rewrite Hc. by destruct s.
Qed.

Lemma strip_no_space s : all_chars no_space s = true -> strip s = s.
Proof.
  intros H. unfold strip. rewrite lstrip_no_space by done.
  by apply rstrip_no_space.
Qed.

Lemma to_int_proper n : Z.to_int n <> Pos Nil /\ Z.to_int n <> Neg Nil.
Proof.
  destruct n as [|p|p]; simpl; split; try discriminate;
    intros [= H]; by apply (DecimalPos.Unsigned.to_uint_nonnil p).
Qed.

Lemma str_int_head n c s :
  str_int n = String c s -> c <> "+"%char.
Proof.
  unfold str_int. intros H ->.
  destruct n as [|p|p]; simpl in H; try discriminate.
  pose proof (nilzero_uint_chars (Pos.to_uint p)) as Hd.
  rewrite H in Hd. discriminate.
Qed.

(** [int(str(n)) == n] *)
Lemma int_str_int n : int (str_int n) = Ok n.
Proof.
  unfold int. rewrite strip_no_space by apply str_int_no_space.
  destruct (to_int_proper n) as [H1 H2].
  assert (NilZero.int_of_string (str_int n) = Some (Z.to_int n)) as Hi
    by (by apply NilZero.isi).
  destruct (str_int n) as [|c s] eqn:Hs; [by destruct (str_int_nonempty n)|].
  pose proof (str_int_head _ _ _ Hs) as Hc.
  destruct (Ascii.eqb_spec c "+"%char) as [->|_]; [done|].
  assert (match String c s with
          | String "+"%char t' =>
              match t' with
              | String "-"%char _ => None
              | _ => NilZero.int_of_string t'
              end
          | _ => NilZero.int_of_string (String c s)
          end = NilZero.int_of_string (String c s)) as ->.
  { destruct c as [[] [] [] [] [] [] [] []]; try reflexivity. done. }
  rewrite Hi. by rewrite DecimalZ.of_to.
Qed.

End StringFacts.

(** * Facts about the date format *)

Section DateFacts.

Import PyStr PyDate.

Lemma all_from_spec (P : Z -> bool) n : forall lo,
  all_from P lo n = true ->
  forall z, lo <= z < lo + Z.of_nat n -> P z = true.
Proof.
  induction n as [|n IH]; intros lo H z Hz; [lia|].
  simpl in H. apply andb_true_iff in H as [H0 H1].
  destruct (decide (z = lo)) as [->|Hne]; [done|].
  apply (IH (lo + 1)); [done|lia].
Qed.

Lemma forallb_seqZ (P : Z -> bool) lo len :
  all_from P lo (Z.to_nat len) = true ->
  forall z, lo <= z < lo + len -> P z = true.
Proof. intros H z Hz. apply (all_from_spec P _ _ H). lia. Qed.

Ltac by_range Hall x :=
  specialize (Hall ltac:(by vm_compute) x ltac:(lia));
  by apply bool_decide_eq_true_1 in Hall.

Lemma digit_char_good k : 0 <= k <= 9 -> good_digit k = true.
Proof. intros H. apply (forallb_seqZ good_digit 0 10); [by vm_compute|lia]. Qed.

Lemma parse_month_two_digits m :
  1 <= m <= 12 -> parse_month (two_digits m) = Some m.
Proof.
  intros H.
  pose proof (forallb_seqZ
    (fun m => bool_decide (parse_month (two_digits m) = Some m)) 1 12) as Hall.
  by_range Hall m.
Qed.

Lemma parse_day_two_digits d :
  1 <= d <= 31 -> parse_day (two_digits d) = Some d.
Proof.
  intros H.
  pose proof (forallb_seqZ
    (fun d => bool_decide (parse_day (two_digits d) = Some d)) 1 31) as Hall.
  by_range Hall d.
Qed.

Lemma parse_year_two_digits yy :
  0 <= yy <= 99 -> parse_year (two_digits yy) = Some (pivot yy).
Proof.
  intros H.
  pose proof (forallb_seqZ
    (fun y => bool_decide (parse_year (two_digits y) = Some (pivot y))) 0 100)
    as Hall.
  by_range Hall yy.
Qed.

Lemma cut_slash_two a b rest :
  Ascii.eqb a "/" = false -> Ascii.eqb b "/" = false ->
  cut_slash (String a (String b (String "/" rest)))
  = Some (String a (String b EmptyString), rest).
Proof. intros Ha Hb. simpl. by rewrite Ha, Hb. Qed.

Lemma two_digits_chars n :
  0 <= n <= 99 ->
  exists a b, two_digits n = String a (String b EmptyString)
    /\ is_space a = false /\ Ascii.eqb a "/" = false
    /\ Ascii.eqb b "/" = false.
Proof.
  intros H. exists (digit_char (n / 10)), (digit_char (n mod 10)).
  assert (0 <= n / 10 <= 9) as H1
    by (Z.div_mod_to_equations; lia).
  assert (0 <= n mod 10 <= 9) as H2
    by (pose proof (Z.mod_pos_bound n 10); lia).
  apply digit_char_good in H1, H2. unfold good_digit in H1, H2.
  repeat (apply andb_true_iff in H1 as [H1 ?]).
  repeat (apply andb_true_iff in H2 as [H2 ?]).
  repeat match goal with
         | H : negb _ = true |- _ => apply negb_true_iff in H
         end.
  done.
Qed.

Lemma day_abbr_cases wd :
  0 <= wd < 7 ->
  exists c1 c2 c3, day_abbr wd = String c1 (String c2 (String c3 EmptyString))
    /\ parse_day_name (day_abbr wd) = true.
Proof.
  intros H.
  assert (wd = 0 \/ wd = 1 \/ wd = 2 \/ wd = 3 \/ wd = 4 \/ wd = 5 \/ wd = 6)
    as Hc by lia.
  destruct Hc as [->|[->|[->|[->|[->|[->| ->]]]]]]; vm_compute; eauto.
Qed.

(** Reading back the text that [strftime] writes for given fields. *)
Lemma parse_fields_written wd m d yy :
  0 <= wd < 7 -> 1 <= m <= 12 -> 1 <= d <= 31 -> 0 <= yy <= 99 ->
  parse_fields (day_abbr wd +:+ " " +:+ two_digits m +:+ "/"
                +:+ two_digits d +:+ "/" +:+ two_digits yy)
  = Some (pivot yy, m, d).
Proof.
  intros Hwd Hm Hd Hy.
  destruct (day_abbr_cases wd Hwd) as (c1 & c2 & c3 & Hn & Hp).
  pose proof (parse_month_two_digits m Hm) as Pm.
  pose proof (parse_day_two_digits d Hd) as Pd.
  pose proof (parse_year_two_digits yy Hy) as Py.
  destruct (two_digits_chars m) as (a1 & b1 & E1 & S1 & A1 & B1); [lia|].
  destruct (two_digits_chars d) as (a2 & b2 & E2 & S2 & A2 & B2); [lia|].
  rewrite Hn in Hp |- *. rewrite E1 in Pm |- *. rewrite E2 in Pd |- *.
  generalize dependent (two_digits yy). intros ty Py.
  cbv [String.append]. unfold parse_fields. rewrite Hp.
  cbn [starts_space String.eqb andb negb].
  change (is_space " ") with true. cbn [Ascii.eqb].
  cbn [lstrip]. change (is_space " ") with true. cbn [lstrip]. rewrite S1.
  rewrite cut_slash_two by done. cbn [mbind option_bind].
  rewrite cut_slash_two by done. cbn [mbind option_bind].
  by rewrite Pm, Pd, Py.
Qed.

Lemma window_ordinals_good n : in_window n -> good_ordinal n = true.
Proof.
  intros [H1 H2].
  apply (forallb_seqZ good_ordinal window_lo 36525); [by vm_compute|].
  unfold window_lo, window_hi in *. lia.
Qed.

(** Within the window the format round-trips. *)
Lemma strptime_strftime n : in_window n -> strptime (strftime n) = Ok n.
Proof.
  intros Hn. pose proof (window_ordinals_good n Hn) as Hg.
  unfold good_ordinal in Hg. unfold strftime, strptime.
  destruct (_ord2ymd n) as [[y m] d].
  repeat (apply andb_true_iff in Hg as [Hg ?]).
  rewrite parse_fields_written.
  - assert (pivot (y mod 100) = y) as -> by lia.
    replace ((1 <=? m) && (m <=? 12) && (1 <=? d) && (d <=? _days_in_month y m))
      with true by (symmetry; repeat (apply andb_true_iff; split); done).
    f_equal. lia.
  - unfold weekday. apply Z.mod_pos_bound. lia.
  - lia.
  - lia.
  - pose proof (Z.mod_pos_bound y 100). lia.
Qed.

Lemma window_months_good y m :
  1969 <= y <= 2068 -> 1 <= m <= 12 -> good_month y m = true.
Proof.
  intros Hy Hm.
  pose proof (forallb_seqZ
    (fun y => all_from (good_month y) 1 12) 1969 100) as Hall.
  assert (all_from (good_month y) 1 12 = true) as Hrow
    by (apply Hall; [by vm_compute|lia]).
  apply (all_from_spec _ _ _ Hrow). lia.
Qed.

Lemma parse_year_range t y : parse_year t = Some y -> 1969 <= y <= 2068.
Proof.
  unfold parse_year. destruct t as [|a [|b [|? ?]]]; try done.
  destruct (is_digit a) eqn:Ha; [|done].
  destruct (is_digit b) eqn:Hb; [|done]. simpl.
  apply digit_val_bounds in Ha, Hb. intros [= <-]. unfold pivot.
  destruct (Z.leb_spec (10 * digit_val a + digit_val b) 68); lia.
Qed.

Lemma parse_fields_year s y m d :
  parse_fields s = Some (y, m, d) -> 1969 <= y <= 2068.
Proof.
  unfold parse_fields. intros H.
  destruct s as [|c1 [|c2 [|c3 rest]]]; try done.
  destruct (_ && _); [|done].
  destruct (cut_slash (lstrip rest)) as [[mt rest1]|]; [|done].
  cbn [mbind option_bind] in H.
  destruct (cut_slash rest1) as [[dt yt]|]; [|done].
  cbn [mbind option_bind] in H.
  destruct (parse_month mt); [|done]. cbn [mbind option_bind] in H.
  destruct (parse_day dt); [|done]. cbn [mbind option_bind] in H.
  destruct (parse_year yt) eqn:Hy; [|done]. cbn [mbind option_bind] in H.
  injection H as <- <- <-. eauto using parse_year_range.
Qed.

(** Whatever [strptime] reads lies in the window. *)
Lemma strptime_in_window s n : strptime s = Ok n -> in_window n.
Proof.
  unfold strptime. destruct (parse_fields s) as [[[y m] d]|] eqn:Hf; [|done].
  apply parse_fields_year in Hf.
  destruct (_ && _) eqn:Hv; [|done]. intros [= <-].
  repeat (apply andb_true_iff in Hv as [Hv ?]).
  assert (good_month y m = true) as Hg by (apply window_months_good; lia).
  unfold good_month in Hg. apply andb_true_iff in Hg as [G1 G2].
  unfold in_window. unfold _ymd2ord in *. lia.
Qed.

Lemma strftime_strptime_again s n :
  strptime s = Ok n -> strptime (strftime n) = Ok n.
Proof. intros H. by apply strptime_strftime, (strptime_in_window s). Qed.

End DateFacts.

(** * Facts about rows and tables *)

Section FrameFacts.

Import PyStr PyDate ProjectPlanner.

Lemma plan_row_lookup id name active mode duration start finish pred level notes :
  let r := plan_row id name active mode duration start finish pred level notes in
  r !! "ID" = Some (CInt id)
  /\ r !! "Name" = Some (CStr name)
  /\ r !! "Duration" = Some (CStr duration)
  /\ r !! "Start" = Some (CStr start)
  /\ r !! "Finish" = Some (CStr finish)
  /\ r !! "Outline Level" = Some (CInt level).
Proof. unfold plan_row. repeat split; by simplify_map_eq. Qed.

Lemma plan_row_has_columns id name active mode duration start finish pred level notes :
  forall c, c ∈ plan_columns ->
  is_Some (plan_row id name active mode duration start finish pred level notes !! c).
Proof.
  intros c Hc. unfold plan_columns in Hc. unfold plan_row.
  repeat (apply elem_of_cons in Hc as [->|Hc]; [by simplify_map_eq|]).
  by apply elem_of_nil in Hc.
Qed.

Lemma fill_id cols (r : row) :
  (forall c, c ∈ cols -> is_Some (r !! c)) -> fill cols r = r.
Proof.
  induction cols as [|c cols IH]; intros H; simpl; [done|].
  rewrite IH by (intros; apply H; by right).
  destruct (H c) as [v Hv]; [by left|]. by rewrite Hv.
Qed.

Lemma rmap_map {A B C : Type} (f : A -> B) (g : B -> result C) l :
  rmap g (map f l) = rmap (fun a => g (f a)) l.
Proof. induction l as [|a l IH]; simpl; [done|]. by rewrite IH. Qed.

Lemma rmap_ext {A B : Type} (f g : A -> result B) l :
  Forall (fun a => f a = g a) l -> rmap f l = rmap g l.
Proof. induction 1 as [|a l Ha _ IH]; simpl; [done|]. by rewrite Ha, IH. Qed.

Lemma rmap_imap {A B : Type} (g : A -> result B) (f : nat -> A -> A) l :
  (forall i a, g (f i a) = g a) -> rmap g (imap f l) = rmap g l.
Proof.
  revert f. induction l as [|a l IH]; intros f H; simpl; [done|].
  rewrite H, IH; [done|]. intros i b. apply H.
Qed.

Lemma rmap_Forall {A B : Type} (f : A -> result B) (P : B -> Prop) l l' :
  (forall a b, f a = Ok b -> P b) -> rmap f l = Ok l' -> Forall P l'.
Proof.
  intros Hf. revert l'. induction l as [|a l IH]; simpl; intros l' H.
  - injection H as <-. constructor.
  - destruct (f a) as [b|] eqn:Ha; [|done]. cbn [mbind result_bind] in H.
    destruct (rmap f l) as [bs|]; [|done]. cbn [mbind result_bind] in H.
    injection H as <-. constructor; eauto.
Qed.

Lemma rmap_length {A B : Type} (f : A -> result B) l l' :
  rmap f l = Ok l' -> length l' = length l.
Proof.
  revert l'. induction l as [|a l IH]; simpl; intros l' H.
  - by injection H as <-.
  - destruct (f a) as [b|]; [|done]. cbn [mbind result_bind] in H.
    destruct (rmap f l) as [bs|]; [|done]. cbn [mbind result_bind] in H.
    injection H as <-. simpl. f_equal. by apply IH.
Qed.

Lemma py_min_elem (P : Z -> Prop) l m :
  py_min l = Ok m -> Forall P l -> P m.
Proof.
  destruct l as [|x l]; [done|]. simpl. intros [= <-] H.
  apply Forall_cons in H as [Hx Hl].
  induction Hl as [|y l Hy _ IH]; simpl; [done|].
  by destruct (Z.min_dec y (foldr Z.min x l)) as [-> | ->].
Qed.

Lemma py_max_elem (P : Z -> Prop) l m :
  py_max l = Ok m -> Forall P l -> P m.
Proof.
  destruct l as [|x l]; [done|]. simpl. intros [= <-] H.
  apply Forall_cons in H as [Hx Hl].
  induction Hl as [|y l Hy _ IH]; simpl; [done|].
  by destruct (Z.max_dec y (foldr Z.max x l)) as [-> | ->].
Qed.

End FrameFacts.

(** * Facts about the planner *)

Section PlannerFacts.

Import PyStr PyDate ProjectPlanner.

(** Inversion of a bind that returned. *)
Ltac bind_ok H :=
  match type of H with
  | mbind _ ?m = Ok _ =>
      let E := fresh "E" in
      destruct m eqn:E; cbn [mbind result_bind] in H; [|discriminate H]
  end.

Lemma cell_days_text n : cell_days (CStr (days_text n)) = Ok (Some n).
Proof.
  unfold cell_days, days_text.
  rewrite contains_append by reflexivity.
  change " days" with (String " " "days").
  rewrite split_word_then_space
    by (apply str_int_no_space || apply str_int_nonempty).
  by rewrite int_str_int.
Qed.

Lemma rendered_duration r s n : rendered_from r s n -> duration_of r = Ok n.
Proof.
  intros (_ & _ & Hd). unfold duration_of, Frame.get. rewrite Hd.
  cbn [mbind result_bind]. by rewrite cell_days_text.
Qed.

Lemma rendered_dates r s n :
  rendered_from r s n -> in_window s -> in_window (s + n) ->
  start_of r = Ok s /\ finish_of r = Ok (s + n).
Proof.
  intros (Hs & Hf & _) Ws Wf. unfold start_of, finish_of, Frame.get.
  rewrite Hs, Hf. cbn [mbind result_bind strptime_cell].
  by rewrite !strptime_strftime.
Qed.

Lemma outline_level_range name : 1 <= _determine_outline_level name <= 3.
Proof. unfold _determine_outline_level. repeat case_match; lia. Qed.

Lemma is_summary_level (r : row) l :
  r !! "Outline Level" = Some (CInt l) -> is_summary r = bool_decide (l = 0).
Proof.
  intros H. unfold is_summary. rewrite H.
  apply bool_decide_ext. split; [by intros [= ->]|by intros ->].
Qed.

(** Renumbering a row changes none of the cells that are read back. *)
Lemma set_id_rendered (r : row) v s n :
  rendered_from r s n -> rendered_from (<["ID" := v]> r) s n.
Proof. intros (H1 & H2 & H3). repeat split; by simplify_map_eq. Qed.

Lemma set_id_summary (r : row) v : is_summary (<["ID" := v]> r) = is_summary r.
Proof. unfold is_summary. by simplify_map_eq. Qed.

Lemma set_id_start (r : row) v : start_of (<["ID" := v]> r) = start_of r.
Proof. unfold start_of, Frame.get. by simplify_map_eq. Qed.

Lemma set_id_finish (r : row) v : finish_of (<["ID" := v]> r) = finish_of r.
Proof. unfold finish_of, Frame.get. by simplify_map_eq. Qed.

Lemma set_id_duration (r : row) v :
  duration_of (<["ID" := v]> r) = duration_of r.
Proof. unfold duration_of, Frame.get. by simplify_map_eq. Qed.

Lemma staggered_renumbered (f : nat -> cell) cur rs :
  staggered cur rs ->
  staggered cur (imap (fun i (r : row) => <["ID" := f i]> r) rs).
Proof.
  intros H. revert f. induction H as [|cur n r rs Hr Hs _ IH]; intros f; simpl.
  - constructor.
  - econstructor.
    + by apply set_id_rendered.
    + by rewrite set_id_summary.
    + apply (IH (fun i => f (S i))).
Qed.

Section Loop.

Variable hash : string -> Z.

Lemma plan_rows_staggered all_tasks tasks : forall i cur rs,
  plan_rows hash all_tasks i cur tasks = Ok rs ->
  staggered cur rs /\ Forall complete rs /\ length rs = length tasks.
Proof.
  induction tasks as [|task rest IH]; intros i cur rs H; simpl in H.
  - injection H as <-. repeat split; constructor.
  - repeat bind_ok H. injection H as <-.
    apply IH in E3 as (Hst & Hc & Hl).
    unfold add_days in E, E2.
    destruct (_ && _) in E; [|done]. injection E as <-.
    destruct (_ && _) in E2; [|done]. injection E2 as <-.
    repeat split.
    + econstructor; [| |exact Hst].
      * pose proof (plan_row_lookup) as L. cbn zeta in L.
        unfold rendered_from. repeat split; apply L.
      * erewrite is_summary_level by apply plan_row_lookup.
        apply bool_decide_eq_false.
        match goal with
        | |- context [_determine_outline_level ?x] =>
            pose proof (outline_level_range x)
        end. lia.
    + constructor; [|done]. intros c Hc'. by apply plan_row_has_columns.
    + simpl. by rewrite Hl.
Qed.

Lemma staggered_not_summary cur rs :
  staggered cur rs -> Forall (fun r => is_summary r = false) rs.
Proof. induction 1; constructor; auto. Qed.

Lemma staggered_durations cur rs :
  staggered cur rs ->
  exists ns,
    rmap duration_of rs = Ok ns
    /\ rmap cell_days (map (fun r : row => default CNaN (r !! "Duration")) rs)
       = Ok (Some <$> ns).
Proof.
  induction 1 as [|cur n r rs Hr _ _ (ns & H1 & H2)].
  - by exists [].
  - exists (n :: ns). cbn [rmap map].
    rewrite H1, H2, (rendered_duration r cur n Hr).
    destruct Hr as (_ & _ & Hd). rewrite Hd. cbn [default from_option id].
    by rewrite cell_days_text.
Qed.

Lemma sum_days_some ns : sum_days (Some <$> ns) = foldr Z.add 0 ns.
Proof.
  unfold sum_days. induction ns as [|n ns IH]; [done|].
  cbn [fmap list_fmap foldr default from_option id]. f_equal. exact IH.
Qed.

Lemma column_start_cells rs :
  Forall complete rs ->
  rmap strptime_cell (map (fun r : row => default CNaN (r !! "Start")) rs)
  = rmap start_of rs.
Proof.
  intros H. rewrite rmap_map. apply rmap_ext.
  eapply Forall_impl; [exact H|]. intros r Hr. simpl.
  destruct (Hr "Start") as [c Hc]; [unfold plan_columns; set_solver|].
  unfold start_of, Frame.get. by rewrite Hc.
Qed.

Lemma column_finish_cells rs :
  Forall complete rs ->
  rmap strptime_cell (map (fun r : row => default CNaN (r !! "Finish")) rs)
  = rmap finish_of rs.
Proof.
  intros H. rewrite rmap_map. apply rmap_ext.
  eapply Forall_impl; [exact H|]. intros r Hr. simpl.
  destruct (Hr "Finish") as [c Hc]; [unfold plan_columns; set_solver|].
  unfold finish_of, Frame.get. by rewrite Hc.
Qed.

Lemma map_fill_complete rs :
  Forall complete rs -> map (fill plan_columns) rs = rs.
Proof.
  induction 1 as [|r rs Hr _ IH]; [done|].
  cbn [map]. rewrite IH. f_equal. by apply fill_id.
Qed.

(** The shape of a table that the [try] block builds from a task list that
    is not empty. *)
Lemma plan_from_tasks_inv self project_info df :
  plan_from_tasks hash self project_info = Ok df ->
  default [] (info_tasks project_info) <> [] ->
  exists trows days ss fs first last,
    staggered (default_start_date self) trows
    /\ length trows = length (default [] (info_tasks project_info))
    /\ rmap cell_days
         (map (fun r : row => default CNaN (r !! "Duration")) trows) = Ok days
    /\ rmap start_of trows = Ok ss
    /\ rmap finish_of trows = Ok fs
    /\ py_min ss = Ok first
    /\ py_max fs = Ok last
    /\ columns df = plan_columns
    /\ rows df =
         <["ID" := CInt 1]>
           (plan_row 0 (default "Untitled Project" (info_name project_info))
              "Yes" "Auto Scheduled" (days_text (sum_days days))
              (strftime first) (strftime last) "" 0 roadmap_notes)
         :: imap (fun i (r : row) => <["ID" := CInt (Z.of_nat (S i) + 1)]> r)
                 trows.
Proof.
  unfold plan_from_tasks. intros H Hne.
  bind_ok H. rename a into trows.
  apply plan_rows_staggered in E as (Hst & Hc & Hl).
  assert (trows <> []) as Hrows.
  { intros ->. destruct (default [] (info_tasks project_info)); done. }
  assert (of_records plan_columns trows
          = {| columns := plan_columns; rows := trows |}) as Hrec
    by (unfold of_records; by destruct trows).
  assert (Frame.empty {| columns := plan_columns; rows := trows |} = false)
    as Hemp by (unfold Frame.empty; simpl; by destruct trows).
  rewrite Hrec in H. unfold _create_summary_row in H. rewrite Hemp in H.
  change (column {| columns := plan_columns; rows := trows |} "Duration")
    with (Ok (map (fun r : row => default CNaN (r !! "Duration")) trows)) in H.
  change (column {| columns := plan_columns; rows := trows |} "Start")
    with (Ok (map (fun r : row => default CNaN (r !! "Start")) trows)) in H.
  change (column {| columns := plan_columns; rows := trows |} "Finish")
    with (Ok (map (fun r : row => default CNaN (r !! "Finish")) trows)) in H.
  cbn [mbind result_bind] in H.
  bind_ok H. rename a into summary, E into Hs. injection H as <-.
  bind_ok Hs. rename a into days, E into Hdays.
  rewrite column_start_cells in Hs by done.
  bind_ok Hs. rename a into ss, E into Hss.
  rewrite column_finish_cells in Hs by done.
  bind_ok Hs. rename a into fs, E into Hfs.
  bind_ok Hs. rename a into first, E into Hfirst.
  bind_ok Hs. rename a into last, E into Hlast.
  injection Hs as <-.
  exists trows, days, ss, fs, first, last.
  repeat split; try done.
  unfold number_rows, Frame.concat. cbn [rows columns].
  change (plan_columns ++ filter (fun c => c ∉ plan_columns) plan_columns)%list
    with plan_columns.
  cbn [app map]. rewrite map_fill_complete by done.
  rewrite fill_id by (intros c Hc'; by apply plan_row_has_columns).
  reflexivity.
Qed.

End Loop.

End PlannerFacts.

(** * Generated plans *)

Section GeneratedPlans.

Import PyStr PyDate ProjectPlanner.

Variable hash : string -> Z.

Lemma rendered_start (r : row) s n :
  rendered_from r s n -> in_window s -> start_of r = Ok s.
Proof.
  intros (Hs & _ & _) Ws. unfold start_of, Frame.get. rewrite Hs.
  cbn [mbind result_bind strptime_cell]. by apply strptime_strftime.
Qed.

Lemma staggered_rendered cur rs :
  staggered cur rs -> Forall (fun r => exists s n, rendered_from r s n) rs.
Proof. induction 1; constructor; eauto. Qed.

Lemma staggered_neighbours cur rs :
  staggered cur rs ->
  forall i r1 r2, rs !! i = Some r1 -> rs !! S i = Some r2 ->
  exists s1 n1 n2,
    rendered_from r1 s1 n1 /\ rendered_from r2 (s1 + Z.max 1 (n1 / 2)) n2.
Proof.
  induction 1 as [|cur n r rs Hr _ Hrs IH]; intros i r1 r2 H1 H2; [done|].
  destruct i as [|i].
  - injection H1 as <-. inversion Hrs as [|? n2 ? ? Hr2]; subst; [done|].
    injection H2 as <-. eauto.
  - eauto.
Qed.

Lemma plan_from_no_tasks self project_info :
  default [] (info_tasks project_info) = [] ->
  plan_from_tasks hash self project_info
  = Ok {| columns := ["ID"]; rows := [] |}.
Proof. intros H. unfold plan_from_tasks. rewrite H. reflexivity. Qed.

Lemma default_plan_rows self df :
  _create_default_plan self = Ok df ->
  Forall (fun r => is_summary r = false /\ exists s n, rendered_from r s n)
         (rows df).
Proof.
  unfold _create_default_plan. intros H.
  destruct (add_days (default_start_date self) 30) as [f1|] eqn:E1; [|done].
  destruct (add_days (default_start_date self) 5) as [f2|] eqn:E2; [|done].
  cbn [mbind result_bind] in H. injection H as <-.
  unfold add_days in E1, E2.
  destruct (_ && _) in E1; [|done]. injection E1 as <-.
  destruct (_ && _) in E2; [|done]. injection E2 as <-.
  cbn [of_records rows]. repeat constructor.
  - exists (default_start_date self), 30. repeat split.
  - exists (default_start_date self), 5. repeat split.
Qed.

(** The rows of a plan are the summary row and then the staggered rows of
    the tasks, or the rows of the default plan, or none. *)
Lemma generated_rows self project_info df :
  generate_project_plan hash self project_info = Ok df ->
  (exists summary trows,
      rows df = summary :: trows /\ is_summary summary = true
      /\ staggered (default_start_date self) trows)
  \/ Forall (fun r => is_summary r = false /\ exists s n, rendered_from r s n)
            (rows df).
Proof.
  unfold generate_project_plan. intros H.
  destruct (plan_from_tasks hash self project_info) as [df'|e] eqn:E.
  - injection H as <-.
    destruct (decide (default [] (info_tasks project_info) = [])) as [Hn|Hn].
    + rewrite (plan_from_no_tasks self project_info Hn) in E.
      injection E as <-.
      right. constructor.
    + destruct (plan_from_tasks_inv hash _ _ _ E Hn)
        as (trows & days & ss & fs & first & last & Hst & _ & _ & _ & _ & _
            & _ & _ & Hrows).
      left. eexists _, _. split; [exact Hrows|]. split.
      * rewrite set_id_summary. reflexivity.
      * apply (staggered_renumbered (fun i => CInt (Z.of_nat (S i) + 1))), Hst.
  - right. by apply (default_plan_rows self).
Qed.

End GeneratedPlans.

(** * The claims about generated plans *)

Section PlanClaims.

Import PyStr PyDate ProjectPlanner Examples.

(** C1 (as amended). In every table that [generate_project_plan] returns,
    every row other than the summary row shows a start date [s], the finish
    date [s + n] and the duration [n] of its ["<n> days"] text; the dates
    read back from the row under the fixed format are [s] and [s + n], so
    that finish = start + duration, whenever [s] and [s + n] lie in
    1969-01-01..2068-12-31, the dates that the two-digit year can denote. *)
Theorem C1_finish_is_start_plus_duration hash self project_info df r :
  generate_project_plan hash self project_info = Ok df ->
  r ∈ rows df ->
  is_summary r = false ->
  exists s n,
    rendered_from r s n
    /\ duration_of r = Ok n
    /\ (in_window s -> in_window (s + n) ->
        start_of r = Ok s /\ finish_of r = Ok (s + n)).
Proof.
  intros Hgen Hr Hns.
  assert (exists s n, rendered_from r s n) as (s & n & Hrn).
  { destruct (generated_rows hash _ _ _ Hgen)
      as [(summary & trows & Hrows & Hsum & Hst)|Hall].
    - rewrite Hrows in Hr. apply elem_of_cons in Hr as [->|Hr]; [congruence|].
      apply staggered_rendered in Hst.
      by apply (proj1 (Forall_forall _ _) Hst).
    - by apply (proj1 (Forall_forall _ _) Hall). }
  exists s, n. split; [done|]. split; [by apply (rendered_duration r s n)|].
  by apply rendered_dates.
Qed.

Lemma C1_witness :
  exists s n,
    rendered_from (row_at default_plan_2026 2) s n
    /\ duration_of (row_at default_plan_2026 2) = Ok n
    /\ (in_window s -> in_window (s + n) ->
        start_of (row_at default_plan_2026 2) = Ok s
        /\ finish_of (row_at default_plan_2026 2) = Ok (s + n)).
Proof.
  apply (C1_finish_is_start_plus_duration hash0 planner_2026 default_info
           default_plan_2026).
  - evaluate.
  - apply list_elem_of_lookup. exists 2%nat. evaluate.
  - evaluate.
Defined.

(** C1 fails as stated: on 2068-12-20 a task of 30 days is shown from
    ["Thu 12/20/68"] to ["Sat 01/19/69"], and the format reads the finish
    back as 1969-01-19. *)
Lemma C1_counterexample :
  generate_project_plan hash0 planner_2068 two_months_info
  = Ok two_months_plan_2068
  /\ row_at two_months_plan_2068 1 ∈ rows two_months_plan_2068
  /\ is_summary (row_at two_months_plan_2068 1) = false
  /\ row_at two_months_plan_2068 1 !! "Start" = Some (CStr "Thu 12/20/68")
  /\ row_at two_months_plan_2068 1 !! "Finish" = Some (CStr "Sat 01/19/69")
  /\ start_of (row_at two_months_plan_2068 1) = Ok (_ymd2ord 2068 12 20)
  /\ finish_of (row_at two_months_plan_2068 1) = Ok (_ymd2ord 1969 1 19)
  /\ duration_of (row_at two_months_plan_2068 1) = Ok 30
  /\ _ymd2ord 1969 1 19 <> _ymd2ord 2068 12 20 + 30.
Proof.
  conjuncts; try evaluate.
  - apply list_elem_of_lookup. exists 1%nat. evaluate.
  - vm_compute. discriminate.
Qed.

Lemma filter_all {A : Type} (P : A -> Prop) `{!forall a, Decision (P a)} l :
  Forall P l -> filter P l = l.
Proof.
  induction 1 as [|a l Ha _ IH]; [done|].
  rewrite filter_cons_True by done. by rewrite IH.
Qed.

Lemma start_of_in_window (r : row) s : start_of r = Ok s -> in_window s.
Proof.
  unfold start_of. destruct (Frame.get r "Start") as [[t| |]|]; try done.
  cbn [mbind result_bind strptime_cell]. apply strptime_in_window.
Qed.

Lemma finish_of_in_window (r : row) s : finish_of r = Ok s -> in_window s.
Proof.
  unfold finish_of. destruct (Frame.get r "Finish") as [[t| |]|]; try done.
  cbn [mbind result_bind strptime_cell]. apply strptime_in_window.
Qed.

(** C2. In every table that [generate_project_plan] returns for a task list
    that is not empty, the duration of the summary row is the sum of the
    durations of the other rows, its start is the least of their starts and
    its finish the greatest of their finishes, all read back from the cells
    under the fixed formats. *)
Theorem C2_summary_row_totals hash self project_info df summary :
  default [] (info_tasks project_info) <> [] ->
  generate_project_plan hash self project_info = Ok df ->
  summary ∈ rows df ->
  is_summary summary = true ->
  exists durations starts finishes,
    let others := filter (fun r => is_summary r = false) (rows df) in
    rmap duration_of others = Ok durations
    /\ rmap start_of others = Ok starts
    /\ rmap finish_of others = Ok finishes
    /\ duration_of summary = Ok (foldr Z.add 0 durations)
    /\ start_of summary = py_min starts
    /\ finish_of summary = py_max finishes.
Proof.
  intros Hne Hgen Hin Hsum. unfold generate_project_plan in Hgen.
  destruct (plan_from_tasks hash self project_info) as [df'|e] eqn:E.
  - injection Hgen as <-.
    destruct (plan_from_tasks_inv hash _ _ _ E Hne)
      as (trows & days & ss & fs & first & last & Hst & _ & Hdays & Hss & Hfs
          & Hfirst & Hlast & _ & Hrows).
    pose proof (staggered_renumbered
                  (fun i => CInt (Z.of_nat (S i) + 1)) _ _ Hst) as Hst'.
    pose proof (staggered_not_summary _ _ Hst') as Hns.
    destruct (staggered_durations _ _ Hst) as (ns & Hns1 & Hns2).
    rewrite Hdays in Hns2. injection Hns2 as ->.
    rewrite Hrows in Hin |- *.
    apply elem_of_cons in Hin as [->|Hin].
    2:{ rewrite Forall_forall in Hns. rewrite (Hns _ Hin) in Hsum. done. }
    exists ns, ss, fs. cbn zeta.
    rewrite filter_cons_False by (rewrite Hsum; done).
    rewrite filter_all by done.
    rewrite !rmap_imap
      by (intros; apply set_id_duration || apply set_id_start
                  || apply set_id_finish).
    rewrite set_id_duration, set_id_start, set_id_finish.
    repeat split; try done.
    + unfold duration_of, Frame.get.
      rewrite (proj1 (proj2 (proj2 (plan_row_lookup _ _ _ _ _ _ _ _ _ _)))).
      cbn [mbind result_bind]. rewrite cell_days_text.
      cbn [mbind result_bind]. by rewrite sum_days_some.
    + unfold start_of, Frame.get.
      rewrite (proj1 (proj2 (proj2 (proj2 (plan_row_lookup _ _ _ _ _ _ _ _ _ _))))).
      cbn [mbind result_bind strptime_cell]. rewrite Hfirst.
      apply strptime_strftime. apply (py_min_elem in_window ss); [done|].
      eapply rmap_Forall; [|exact Hss]. apply start_of_in_window.
    + unfold finish_of, Frame.get.
      rewrite (proj1 (proj2 (proj2 (proj2 (proj2 (plan_row_lookup _ _ _ _ _ _ _ _ _ _)))))).
      cbn [mbind result_bind strptime_cell]. rewrite Hlast.
      apply strptime_strftime. apply (py_max_elem in_window fs); [done|].
      eapply rmap_Forall; [|exact Hfs]. apply finish_of_in_window.
  - apply default_plan_rows in Hgen. rewrite Forall_forall in Hgen.
    destruct (Hgen _ Hin) as [Hf _]. congruence.
Qed.

Lemma C2_witness :
  exists durations starts finishes,
    let others :=
      filter (fun r => is_summary r = false) (rows default_plan_2026) in
    rmap duration_of others = Ok durations
    /\ rmap start_of others = Ok starts
    /\ rmap finish_of others = Ok finishes
    /\ duration_of (row_at default_plan_2026 0)
       = Ok (foldr Z.add 0 durations)
    /\ start_of (row_at default_plan_2026 0) = py_min starts
    /\ finish_of (row_at default_plan_2026 0) = py_max finishes.
Proof.
  apply (C2_summary_row_totals hash0 planner_2026 default_info
           default_plan_2026).
  - vm_compute. discriminate.
  - evaluate.
  - apply list_elem_of_lookup. exists 0%nat. evaluate.
  - evaluate.
Defined.

(** The summary row comes first and is renumbered from 0 to 1. *)
Lemma summary_row_first hash self project_info df :
  default [] (info_tasks project_info) <> [] ->
  plan_from_tasks hash self project_info = Ok df ->
  exists summary task_rows,
    rows df = summary :: task_rows
    /\ is_summary summary = true
    /\ summary !! "ID" = Some (CInt 1)
    /\ Forall (fun r => is_summary r = false) task_rows
    /\ staggered (default_start_date self) task_rows.
Proof.
  intros Hne E.
  destruct (plan_from_tasks_inv hash _ _ _ E Hne)
    as (trows & days & ss & fs & first & last & Hst & _ & _ & _ & _ & _ & _
        & _ & Hrows).
  pose proof (staggered_renumbered
                (fun i => CInt (Z.of_nat (S i) + 1)) _ _ Hst) as Hst'.
  eexists _, _. split; [exact Hrows|].
  split; [by rewrite set_id_summary|].
  split; [by simplify_map_eq|].
  split; [by apply (staggered_not_summary _ _ Hst')|exact Hst'].
Qed.

(** C6, at a sample input. The summary row of the returned table is its
    first row, and it is the only row at outline level 0, but its ID is 1:
    the ID 0 that [_create_summary_row] gives it is overwritten when the
    rows are renumbered from 1. *)
Theorem C6_summary_row_id_is_renumbered :
  generate_project_plan hash0 planner_2026 default_info
  = Ok default_plan_2026
  /\ is_summary (row_at default_plan_2026 0) = true
  /\ rows default_plan_2026 !! 0%nat = Some (row_at default_plan_2026 0)
  /\ row_at default_plan_2026 0 !! "ID" = Some (CInt 1)
  /\ Forall (fun r : row => r !! "ID" <> Some (CInt 0))
            (rows default_plan_2026).
Proof.
  conjuncts; try evaluate.
  apply Forall_forall. intros r Hr.
  assert (forallb (fun r : row =>
                     negb (bool_decide (r !! "ID" = Some (CInt 0))))
                  (rows default_plan_2026) = true) as H by evaluate.
  rewrite forallb_forall in H. apply list_elem_of_In in Hr.
  specialize (H r Hr). by apply negb_true_iff, bool_decide_eq_false in H.
Qed.

(** C9 (as amended). In every table built from a task list that is not
    empty, each row after the summary row shows a start date that is
    [max(1, n // 2)] days, hence at least one day, after the start date [s1]
    of the row before it, [n] being the duration of that row; the dates
    read back from the two [Start] cells under the fixed format are these
    dates whenever both lie in 1969-01-01..2068-12-31. *)
Theorem C9_starts_strictly_increase hash self project_info df :
  default [] (info_tasks project_info) <> [] ->
  plan_from_tasks hash self project_info = Ok df ->
  generate_project_plan hash self project_info = Ok df
  /\ exists summary task_rows,
       rows df = summary :: task_rows
       /\ is_summary summary = true
       /\ Forall (fun r => is_summary r = false) task_rows
       /\ forall i r1 r2,
            task_rows !! i = Some r1 -> task_rows !! S i = Some r2 ->
            exists s1 n1 s2 n2,
              rendered_from r1 s1 n1 /\ rendered_from r2 s2 n2
              /\ duration_of r1 = Ok n1
              /\ s2 = s1 + Z.max 1 (n1 / 2)
              /\ s1 < s2
              /\ (in_window s1 -> in_window s2 ->
                  start_of r1 = Ok s1 /\ start_of r2 = Ok s2).
Proof.
  intros Hne E. split; [unfold generate_project_plan; by rewrite E|].
  destruct (summary_row_first hash _ _ _ Hne E)
    as (summary & task_rows & Hrows & Hsum & _ & Hns & Hst).
  exists summary, task_rows. repeat split; try done.
  intros i r1 r2 H1 H2.
  destruct (staggered_neighbours _ _ Hst i r1 r2 H1 H2)
    as (s1 & n1 & n2 & Hr1 & Hr2).
  exists s1, n1, (s1 + Z.max 1 (n1 / 2)), n2.
  split; [exact Hr1|]. split; [exact Hr2|].
  split; [by apply (rendered_duration r1 s1 n1)|].
  split; [done|]. split; [lia|]. intros W1 W2.
  split; [by apply (rendered_start r1 s1 n1)|by apply (rendered_start r2 _ n2)].
Qed.

Lemma C9_witness :
  generate_project_plan hash0 planner_2026 default_info
  = Ok default_plan_2026
  /\ exists summary task_rows,
       rows default_plan_2026 = summary :: task_rows
       /\ is_summary summary = true
       /\ Forall (fun r => is_summary r = false) task_rows
       /\ forall i r1 r2,
            task_rows !! i = Some r1 -> task_rows !! S i = Some r2 ->
            exists s1 n1 s2 n2,
              rendered_from r1 s1 n1 /\ rendered_from r2 s2 n2
              /\ duration_of r1 = Ok n1
              /\ s2 = s1 + Z.max 1 (n1 / 2)
              /\ s1 < s2
              /\ (in_window s1 -> in_window s2 ->
                  start_of r1 = Ok s1 /\ start_of r2 = Ok s2).
Proof.
  apply (C9_starts_strictly_increase hash0 planner_2026 default_info
           default_plan_2026).
  - vm_compute. discriminate.
  - evaluate.
Defined.

(** C9 fails as stated: on 2068-12-20 two tasks of 30 days start on
    ["Thu 12/20/68"] and ["Fri 01/04/69"], and the format reads the second
    start back as 1969-01-04, before the first. *)
Lemma C9_counterexample :
  plan_from_tasks hash0 planner_2068 two_months_info = Ok two_months_plan_2068
  /\ rows two_months_plan_2068
     = [row_at two_months_plan_2068 0; row_at two_months_plan_2068 1;
        row_at two_months_plan_2068 2]
  /\ is_summary (row_at two_months_plan_2068 1) = false
  /\ is_summary (row_at two_months_plan_2068 2) = false
  /\ row_at two_months_plan_2068 1 !! "Start" = Some (CStr "Thu 12/20/68")
  /\ row_at two_months_plan_2068 2 !! "Start" = Some (CStr "Fri 01/04/69")
  /\ start_of (row_at two_months_plan_2068 1) = Ok (_ymd2ord 2068 12 20)
  /\ start_of (row_at two_months_plan_2068 2) = Ok (_ymd2ord 1969 1 4)
  /\ _ymd2ord 1969 1 4 < _ymd2ord 2068 12 20.
Proof. conjuncts; evaluate. Qed.

(** C10. For a task list that is empty the [try] block raises nothing and
    [generate_project_plan] returns a table without rows, whose only column
    is the [ID] column of the renumbering: no summary row is made and the
    default plan of two rows is not returned. *)
Theorem C10_empty_task_list hash self project_info :
  default [] (info_tasks project_info) = [] ->
  plan_from_tasks hash self project_info
  = Ok {| columns := ["ID"]; rows := [] |}
  /\ generate_project_plan hash self project_info
     = Ok {| columns := ["ID"]; rows := [] |}
  /\ Frame.empty {| columns := ["ID"]; rows := [] |} = true
  /\ _create_default_plan self <> Ok {| columns := ["ID"]; rows := [] |}.
Proof.
  intros H. pose proof (plan_from_no_tasks hash self project_info H) as E.
  repeat split; try done.
  - unfold generate_project_plan. by rewrite E.
  - unfold _create_default_plan.
    destruct (add_days (default_start_date self) 30); [|done].
    destruct (add_days (default_start_date self) 5); [|done].
    cbn [mbind result_bind of_records]. intros [= ?].
Qed.

Lemma C10_witness :
  plan_from_tasks hash0 planner_2026 empty_info
  = Ok {| columns := ["ID"]; rows := [] |}
  /\ generate_project_plan hash0 planner_2026 empty_info
     = Ok {| columns := ["ID"]; rows := [] |}
  /\ Frame.empty {| columns := ["ID"]; rows := [] |} = true
  /\ _create_default_plan planner_2026
     <> Ok {| columns := ["ID"]; rows := [] |}.
Proof. apply (C10_empty_task_list hash0 planner_2026 empty_info). reflexivity. Defined.

End PlanClaims.

(** * Shifting and validating a plan *)

Section ShiftClaims.

Import PyStr PyDate ProjectPlanner Examples.

Lemma window_in_range d n : in_window (d + n) -> add_days d n = Ok (d + n).
Proof.
  unfold in_window, window_lo, window_hi, add_days, MINORD, MAXORD.
  intros H. case_match; [done|]. lia.
Qed.

Lemma start_of_cell (r : row) s :
  start_of r = Ok s ->
  exists c, r !! "Start" = Some c /\ strptime_cell c = Ok s.
Proof.
  unfold start_of, Frame.get. destruct (r !! "Start") as [c|]; [|done].
  cbn [mbind result_bind]. eauto.
Qed.

Lemma finish_of_cell (r : row) f :
  finish_of r = Ok f ->
  exists c, r !! "Finish" = Some c /\ strptime_cell c = Ok f.
Proof.
  unfold finish_of, Frame.get. destruct (r !! "Finish") as [c|]; [|done].
  cbn [mbind result_bind]. eauto.
Qed.

Lemma movableb_movable diff r : movableb diff r = true -> movable diff r.
Proof.
  unfold movableb, movable, in_windowb, in_window.
  destruct (start_of r) as [s|]; [|done].
  destruct (finish_of r) as [f|]; [|done].
  intros [[? ?]%andb_true_iff [? ?]%andb_true_iff]%andb_true_iff.
  exists s, f. repeat split; try done; lia.
Qed.

Lemma shift_row_moved diff (r : row) s f :
  start_of r = Ok s -> finish_of r = Ok f ->
  in_window (s + diff) -> in_window (f + diff) ->
  shift_row diff r = Ok (moved diff r s f).
Proof.
  intros (c1 & Hc1 & Hs)%start_of_cell (c2 & Hc2 & Hf)%finish_of_cell Ws Wf.
  unfold shift_row, Frame.get. rewrite Hc1, Hc2.
  cbn [mbind result_bind]. rewrite Hs, Hf. cbn [mbind result_bind].
  rewrite !window_in_range by done. reflexivity.
Qed.

Lemma moved_dates diff (r : row) s f :
  in_window (s + diff) -> in_window (f + diff) ->
  start_of (moved diff r s f) = Ok (s + diff)
  /\ finish_of (moved diff r s f) = Ok (f + diff)
  /\ forall c, c <> "Start" -> c <> "Finish" -> moved diff r s f !! c = r !! c.
Proof.
  intros Ws Wf. unfold moved, start_of, finish_of, Frame.get.
  repeat split.
  - simplify_map_eq. cbn [mbind result_bind strptime_cell].
    by apply strptime_strftime.
  - simplify_map_eq. cbn [mbind result_bind strptime_cell].
    by apply strptime_strftime.
  - intros c H1 H2. by simplify_map_eq.
Qed.

Lemma shift_rows_moved diff rs :
  Forall (movable diff) rs ->
  exists rs',
    shift_rows diff rs = (rs', None)
    /\ Forall2 (fun r r' =>
                  exists s f, start_of r = Ok s /\ finish_of r = Ok f
                    /\ in_window (s + diff) /\ in_window (f + diff)
                    /\ r' = moved diff r s f) rs rs'.
Proof.
  induction 1 as [|r rs (s & f & Hs & Hf & Ws & Wf) _ (rs' & E & IH)].
  - exists []. split; [done|constructor].
  - exists (moved diff r s f :: rs'). cbn [shift_rows].
    rewrite (shift_row_moved diff r s f) by done. rewrite E.
    split; [done|]. constructor; [|done]. by exists s, f.
Qed.

Lemma moved_fixed (r : row) s f :
  in_window s -> in_window f ->
  r !! "Start" = Some (CStr (strftime s)) ->
  r !! "Finish" = Some (CStr (strftime f)) ->
  shift_row 0 r = Ok r.
Proof.
  intros Ws Wf Hs Hf.
  assert (start_of r = Ok s) as Es
    by (unfold start_of, Frame.get; rewrite Hs; by apply strptime_strftime).
  assert (finish_of r = Ok f) as Ef
    by (unfold finish_of, Frame.get; rewrite Hf; by apply strptime_strftime).
  rewrite (shift_row_moved 0 r s f) by (rewrite ?Z.add_0_r; done).
  unfold moved. rewrite !Z.add_0_r. f_equal.
  rewrite (insert_id r "Start") by done. by apply insert_id.
Qed.

Lemma shift_rows_fixed rs :
  Forall (fun r : row =>
            exists s f, in_window s /\ in_window f
              /\ r !! "Start" = Some (CStr (strftime s))
              /\ r !! "Finish" = Some (CStr (strftime f))) rs ->
  shift_rows 0 rs = (rs, None).
Proof.
  induction 1 as [|r rs (s & f & Ws & Wf & Hs & Hf) _ IH]; [done|].
  cbn [shift_rows]. rewrite (moved_fixed r s f) by done. by rewrite IH.
Qed.

(** C3 (as amended). For a table that is not empty, whose rows all have a
    [Start] and a [Finish] that read back under the fixed format, and whose
    dates all stay in 1969-01-01..2068-12-31 when moved by the offset
    between the new start date and the start of the first row,
    [update_plan_dates] moves the start and the finish of every row by that
    offset and leaves the other cells alone, so that finish minus start is
    the same as before; updating the result again to the same date changes
    nothing. *)
Theorem C3_update_plan_dates_shifts self df new_start_date first rest s0 :
  Frame.empty df = false ->
  rows df = first :: rest ->
  start_of first = Ok s0 ->
  Forall (movable (new_start_date - s0)) (rows df) ->
  let df' := update_plan_dates self df new_start_date in
  columns df' = columns df
  /\ Forall2 (fun r r' =>
                exists s f s' f',
                  start_of r = Ok s /\ finish_of r = Ok f
                  /\ start_of r' = Ok s' /\ finish_of r' = Ok f'
                  /\ s' = s + (new_start_date - s0)
                  /\ f' = f + (new_start_date - s0)
                  /\ f' - s' = f - s
                  /\ forall c, c <> "Start" -> c <> "Finish" -> r' !! c = r !! c)
             (rows df) (rows df')
  /\ update_plan_dates self df' new_start_date = df'.
Proof.
  intros Hemp Hrows Hs0 Hall df'.
  destruct (shift_rows_moved _ _ Hall) as (rs' & E & Hrel).
  assert (df' = {| columns := columns df; rows := rs' |}) as Hdf'.
  { unfold df', update_plan_dates. rewrite Hemp, Hrows.
    fold (start_of first). rewrite Hs0. rewrite <- Hrows, E. reflexivity. }
  rewrite Hdf'. cbn [columns rows]. split; [done|]. split.
  - eapply Forall2_impl; [exact Hrel|].
    intros r r' (s & f & Hs & Hf & Ws & Wf & ->).
    destruct (moved_dates (new_start_date - s0) r s f Ws Wf) as (Ms & Mf & Mo).
    exists s, f, (s + (new_start_date - s0)), (f + (new_start_date - s0)).
    repeat split; try done. lia.
  - rewrite Hrows in Hrel.
    apply Forall2_cons_inv_l in Hrel
      as (first' & rest' & (s & f & Hs & Hf & Ws & Wf & Hfirst') & Hrest & ->).
    assert (s = s0) as -> by congruence.
    destruct (moved_dates (new_start_date - s0) first s0 f Ws Wf)
      as (Ms & _ & _). rewrite <- Hfirst' in Ms.
    unfold update_plan_dates.
    assert (Frame.empty {| columns := columns df; rows := first' :: rest' |}
            = false) as ->.
    { unfold Frame.empty in Hemp |- *. cbn [rows columns].
      rewrite Hrows in Hemp. exact Hemp. }
    cbn [rows]. fold (start_of first'). rewrite Ms. cbn [columns].
    replace (new_start_date - (s0 + (new_start_date - s0))) with 0 by lia.
    rewrite shift_rows_fixed; [done|].
    constructor.
    + exists (s0 + (new_start_date - s0)), (f + (new_start_date - s0)).
      rewrite Hfirst'. unfold moved.
      split; [exact Ws|]. split; [exact Wf|]. split; by simplify_map_eq.
    + clear -Hrest. induction Hrest as [|r r' rs rs' Hr _ IH]; constructor; [|done].
      destruct Hr as (s & f & _ & _ & Ws & Wf & ->).
      exists (s + (new_start_date - s0)), (f + (new_start_date - s0)).
      unfold moved.
      split; [exact Ws|]. split; [exact Wf|]. split; by simplify_map_eq.
Qed.

Lemma C3_witness :
  let df' := update_plan_dates planner_2026 default_plan_2026
               (_ymd2ord 2026 12 3) in
  columns df' = columns default_plan_2026
  /\ Forall2 (fun r r' =>
                exists s f s' f',
                  start_of r = Ok s /\ finish_of r = Ok f
                  /\ start_of r' = Ok s' /\ finish_of r' = Ok f'
                  /\ s' = s + (_ymd2ord 2026 12 3 - _ymd2ord 2026 11 3)
                  /\ f' = f + (_ymd2ord 2026 12 3 - _ymd2ord 2026 11 3)
                  /\ f' - s' = f - s
                  /\ forall c, c <> "Start" -> c <> "Finish" -> r' !! c = r !! c)
             (rows default_plan_2026) (rows df')
  /\ update_plan_dates planner_2026 df' (_ymd2ord 2026 12 3) = df'.
Proof.
  apply (C3_update_plan_dates_shifts planner_2026 default_plan_2026
           (_ymd2ord 2026 12 3) (row_at default_plan_2026 0)
           (tail (rows default_plan_2026)) (_ymd2ord 2026 11 3)).
  - evaluate.
  - evaluate.
  - evaluate.
  - apply Forall_forall. intros r Hr. apply movableb_movable.
    assert (forallb (movableb (_ymd2ord 2026 12 3 - _ymd2ord 2026 11 3))
                    (rows default_plan_2026) = true) as H by evaluate.
    rewrite forallb_forall in H. apply list_elem_of_In in Hr. exact (H r Hr).
Defined.

(** C3 fails as stated: a row from 2024-01-01 to 2024-01-11 that is moved
    to 2068-12-25 is shown until ["Fri 01/04/69"], which the format reads
    back as 1969-01-04, so that finish minus start is no longer 10. *)
Lemma C3_counterexample :
  let df' := update_plan_dates planner_2026 one_row_plan (_ymd2ord 2068 12 25) in
  rows one_row_plan = [ten_day_row]
  /\ start_of ten_day_row = Ok (_ymd2ord 2024 1 1)
  /\ finish_of ten_day_row = Ok (_ymd2ord 2024 1 11)
  /\ _ymd2ord 2024 1 11 - _ymd2ord 2024 1 1 = 10
  /\ rows df' = [row_at df' 0]
  /\ row_at df' 0 !! "Finish" = Some (CStr "Fri 01/04/69")
  /\ start_of (row_at df' 0) = Ok (_ymd2ord 2068 12 25)
  /\ finish_of (row_at df' 0) = Ok (_ymd2ord 1969 1 4)
  /\ _ymd2ord 1969 1 4 - _ymd2ord 2068 12 25 <> 10.
Proof.
  intros df'. conjuncts; try evaluate. vm_compute. discriminate.
Qed.

(** C4, at a sample input. The second row has a [Start] that does not read
    back, so the shift stops there with an exception; but the first row was
    already moved in place, and the table that is returned differs from the
    table that was passed. *)
Theorem C4_failed_shift_keeps_moved_rows :
  let df' := update_plan_dates planner_2026 half_dated_plan (_ymd2ord 2024 2 1) in
  rows half_dated_plan = [ten_day_row; undated_row]
  /\ start_of undated_row = Raise ValueError
  /\ snd (shift_rows (_ymd2ord 2024 2 1 - _ymd2ord 2024 1 1)
                     (rows half_dated_plan)) = Some ValueError
  /\ rows df' = [row_at df' 0; undated_row]
  /\ ten_day_row !! "Start" = Some (CStr "Mon 01/01/24")
  /\ row_at df' 0 !! "Start" = Some (CStr "Thu 02/01/24")
  /\ row_at df' 0 !! "Finish" = Some (CStr "Sun 02/11/24")
  /\ df' <> half_dated_plan.
Proof.
  intros df'. conjuncts; try evaluate.
  intros H. apply (f_equal (fun d => row_at d 0 !! "Start")) in H.
  vm_compute in H. discriminate.
Qed.

(** C8, at a sample input. For a table without the column [Name],
    [validate_plan] notes the missing column and then raises [KeyError] when
    it reads that column; the date check, which does test for its column,
    is not reached. *)
Theorem C8_validate_plan_raises :
  Frame.empty nameless_plan = false
  /\ has_column nameless_plan "Name" = false
  /\ validate_plan planner_2026 nameless_plan = Raise KeyError.
Proof. conjuncts; evaluate. Qed.

End ShiftClaims.

(** * The claims about the analyzer *)

Section AnalyzerClaims.

Import PyStr DocumentAnalyzer Examples.

(** C5. When the scan of the sentences finds no task, the task list of the
    analyzer is the list of the six default tasks, in their order and with
    their priorities and durations. *)
Theorem C5_default_task_list sent_tokenize text project_name (t : tape) :
  fst (scan_tasks (sent_tokenize (_clean_text text)) t) = [] ->
  exists tasks,
    info_tasks (fst (extract_project_info sent_tokenize text project_name t))
    = Some tasks
    /\ tasks = _generate_default_tasks (_clean_text text)
    /\ map task_name tasks
       = [Some "Project Planning"; Some "Requirements Analysis";
          Some "System Design"; Some "Development Phase 1";
          Some "Testing"; Some "Deployment"]
    /\ map task_priority tasks
       = [Some "High"; Some "High"; Some "Medium"; Some "High"; Some "High";
          Some "Medium"]
    /\ map estimated_duration tasks
       = [Some 3; Some 5; Some 7; Some 10; Some 5; Some 2].
Proof.
  intros H. exists (_generate_default_tasks (_clean_text text)).
  split; [|done].
  unfold extract_project_info, _extract_tasks.
  destruct (scan_tasks _ t) as [tasks t'] eqn:E. simpl in H. subst tasks.
  reflexivity.
Qed.

Lemma C5_witness :
  exists tasks,
    info_tasks (fst (extract_project_info simple_sent_tokenize
                       "Hello world. Nothing to do here." "Auth" []))
    = Some tasks
    /\ tasks = _generate_default_tasks
                 (_clean_text "Hello world. Nothing to do here.")
    /\ map task_name tasks
       = [Some "Project Planning"; Some "Requirements Analysis";
          Some "System Design"; Some "Development Phase 1";
          Some "Testing"; Some "Deployment"]
    /\ map task_priority tasks
       = [Some "High"; Some "High"; Some "Medium"; Some "High"; Some "High";
          Some "Medium"]
    /\ map estimated_duration tasks
       = [Some 3; Some 5; Some 7; Some 10; Some 5; Some 2].
Proof.
  apply (C5_default_task_list simple_sent_tokenize
           "Hello world. Nothing to do here." "Auth" []).
  reflexivity.
Defined.

Lemma random_choice_two a b (t : tape) :
  fst (random_choice [a; b] t) = a \/ fst (random_choice [a; b] t) = b.
Proof.
  unfold random_choice. destruct (draw t) as [x t']. cbn [fst length].
  pose proof (Z.mod_pos_bound x (Z.of_nat 2) ltac:(lia)) as Hx.
  assert (x `mod` Z.of_nat 2 = 0 \/ x `mod` Z.of_nat 2 = 1) as [-> | ->]
    by lia; auto.
Qed.

(** C7 (as amended). For the text of the scenario, which has the two
    sentences below, and the project name ["Auth"], the task list of the
    analyzer has exactly two tasks: ["Will Implement The Login Module"] of
    5 days and ["Will Test The Module For"] of 2 days, each of priority
    ["Medium"] or ["Low"]. *)
Theorem C7_login_scenario_tasks sent_tokenize (t : tape) :
  sent_tokenize (_clean_text login_text)
  = [login_sentence_1; login_sentence_2] ->
  exists p1 p2,
    (p1 = "Medium" \/ p1 = "Low") /\ (p2 = "Medium" \/ p2 = "Low")
    /\ fst (extract_project_info sent_tokenize login_text "Auth" t)
       = {| info_name := Some "Auth";
            info_tasks := Some
              [ {| task_name := Some "Will Implement The Login Module";
                   task_description := Some login_sentence_1;
                   task_priority := Some p1;
                   estimated_duration := Some 5 |};
                {| task_name := Some "Will Test The Module For";
                   task_description := Some login_sentence_2;
                   task_priority := Some p2;
                   estimated_duration := Some 2 |} ] |}.
Proof.
  intros Htok.
  unfold extract_project_info, _extract_tasks. rewrite Htok.
  cbn [scan_tasks].
  change (matching_keyword login_sentence_1) with (Some "implement").
  change (matching_keyword login_sentence_2) with (Some "test").
  cbv iota beta.
  change (_generate_task_name login_sentence_1 "implement")
    with (Some "Will Implement The Login Module").
  change (_generate_task_name login_sentence_2 "test")
    with (Some "Will Test The Module For").
  cbv iota beta.
  change (len "Will Implement The Login Module" <? 100) with true.
  change (len "Will Test The Module For" <? 100) with true.
  cbv iota beta.
  assert (forall t0, _estimate_priority login_sentence_1 t0
                     = random_choice ["Medium"; "Low"] t0) as P1 by done.
  assert (forall t0, _estimate_priority login_sentence_2 t0
                     = random_choice ["Medium"; "Low"] t0) as P2 by done.
  assert (forall t0, _estimate_duration login_sentence_1 t0 = (5, t0))
    as D1 by done.
  assert (forall t0, _estimate_duration login_sentence_2 t0 = (2, t0))
    as D2 by done.
  rewrite P1.
  pose proof (random_choice_two "Medium" "Low" t) as C1.
  destruct (random_choice ["Medium"; "Low"] t) as [p1 t1].
  rewrite D1, P2.
  pose proof (random_choice_two "Medium" "Low" t1) as C2.
  destruct (random_choice ["Medium"; "Low"] t1) as [p2 t2].
  rewrite D2. exists p1, p2. split; [exact C1|]. split; [exact C2|]. reflexivity.
Qed.

Lemma C7_witness :
  exists p1 p2,
    (p1 = "Medium" \/ p1 = "Low") /\ (p2 = "Medium" \/ p2 = "Low")
    /\ fst (extract_project_info simple_sent_tokenize login_text "Auth" [4; 7])
       = {| info_name := Some "Auth";
            info_tasks := Some
              [ {| task_name := Some "Will Implement The Login Module";
                   task_description := Some login_sentence_1;
                   task_priority := Some p1;
                   estimated_duration := Some 5 |};
                {| task_name := Some "Will Test The Module For";
                   task_description := Some login_sentence_2;
                   task_priority := Some p2;
                   estimated_duration := Some 2 |} ] |}.
Proof.
  apply (C7_login_scenario_tasks simple_sent_tokenize [4; 7]).
  reflexivity.
Defined.

(** C7 fails as stated: the names keep the word before the keyword and the
    three words after it, so that neither contains ["Implement Login
    Module"] and neither contains ["Test Module"]. *)
Lemma C7_counterexample :
  simple_sent_tokenize (_clean_text login_text)
  = [login_sentence_1; login_sentence_2]
  /\ option_map (map task_name)
       (info_tasks
          (fst (extract_project_info simple_sent_tokenize login_text "Auth" [])))
     = Some [Some "Will Implement The Login Module";
             Some "Will Test The Module For"]
  /\ contains "Implement Login Module" "Will Implement The Login Module" = false
  /\ contains "Implement Login Module" "Will Test The Module For" = false
  /\ contains "Test Module" "Will Implement The Login Module" = false
  /\ contains "Test Module" "Will Test The Module For" = false.
Proof. conjuncts; evaluate. Qed.

End AnalyzerClaims.

(** * Further properties of the planner *)

(** Inversion of a bind that returned. *)
Ltac bind_inv H :=
  match type of H with
  | mbind _ ?m = Ok _ =>
      let E := fresh "E" in
      destruct m eqn:E; cbn [mbind result_bind] in H; [|discriminate H]
  end.

Section PlanShape.

Import PyStr PyDate ProjectPlanner Examples.

Variable hash : string -> Z.

(** The row that the loop writes for each task. *)
Lemma plan_rows_shape all_tasks tasks : forall i cur rs,
  plan_rows hash all_tasks i cur tasks = Ok rs ->
  forall k task, tasks !! k = Some task ->
  exists r name pred s f,
    rs !! k = Some r
    /\ task_name task = Some name
    /\ r = plan_row (Z.of_nat (i + k) + 1) name "Yes" "Auto Scheduled"
             (days_text (default 5 (estimated_duration task))) s f pred
             (_determine_outline_level name) (_generate_task_notes task)
    /\ ((i + k = 0)%nat -> pred = "")
    /\ (pred = "" \/ pred = str_int (Z.of_nat (i + k))).
Proof.
  induction tasks as [|t rest IH]; intros i cur rs H k task Hk; [done|].
  simpl in H.
  bind_inv H. rename a into finish_date.
  bind_inv H. rename a into pred, E0 into Hpred.
  bind_inv H. rename a into name, E0 into Hname.
  bind_inv H. rename a into next.
  bind_inv H. rename a into more, E1 into Hmore.
  injection H as <-.
  destruct k as [|k].
  - injection Hk as <-. eexists _, name, pred, _, _.
    split; [reflexivity|]. rewrite Nat.add_0_r.
    split; [unfold name_of in Hname; by destruct (task_name t) as [n|];
            [injection Hname as ->|]|].
    split; [reflexivity|].
    unfold _calculate_predecessors in Hpred.
    destruct i as [|i]; [injection Hpred as <-; auto|].
    split; [lia|].
    destruct (all_tasks !! S i) as [t'|]; [|done].
    destruct (name_of t') as [n'|]; [|done]. cbn [mbind result_bind] in Hpred.
    destruct (_ <? 6); injection Hpred as <-; [|by left].
    right. f_equal. lia.
  - destruct (IH _ _ _ Hmore k task Hk)
      as (r & name' & pred' & s & f & Hr & Hn & -> & H0 & Hp).
    replace (i + S k)%nat with (S i + k)%nat by lia.
    eexists _, name', pred', s, f. split; [exact Hr|].
    split; [done|]. split; [done|]. split; [intros ?; lia|done].
Qed.

Lemma plan_rows_length all_tasks tasks i cur rs :
  plan_rows hash all_tasks i cur tasks = Ok rs -> length rs = length tasks.
Proof. intros H. by apply plan_rows_staggered in H as (_ & _ & ?). Qed.

(** The table that the [try] block builds, in terms of the rows of the
    loop. *)
Lemma plan_from_tasks_rows self project_info df :
  plan_from_tasks hash self project_info = Ok df ->
  default [] (info_tasks project_info) <> [] ->
  exists trows total first last,
    plan_rows hash (default [] (info_tasks project_info)) 0
      (default_start_date self) (default [] (info_tasks project_info))
    = Ok trows
    /\ columns df = plan_columns
    /\ rows df =
         <["ID" := CInt 1]>
           (plan_row 0 (default "Untitled Project" (info_name project_info))
              "Yes" "Auto Scheduled" (days_text total)
              (strftime first) (strftime last) "" 0 roadmap_notes)
         :: imap (fun i (r : row) => <["ID" := CInt (Z.of_nat (S i) + 1)]> r)
                 trows.
Proof.
  unfold plan_from_tasks. intros H Hne.
  bind_inv H. rename a into trows.
  pose proof (plan_rows_staggered _ _ _ _ _ _ E) as (_ & Hc & Hl).
  assert (trows <> []) as Hrows.
  { intros ->. destruct (default [] (info_tasks project_info)); done. }
  assert (of_records plan_columns trows
          = {| columns := plan_columns; rows := trows |}) as Hrec
    by (unfold of_records; by destruct trows).
  assert (Frame.empty {| columns := plan_columns; rows := trows |} = false)
    as Hemp by (unfold Frame.empty; simpl; by destruct trows).
  rewrite Hrec in H. unfold _create_summary_row in H. rewrite Hemp in H.
  bind_inv H. rename a into summary, E0 into Hs. injection H as <-.
  repeat bind_inv Hs. injection Hs as <-.
  eexists trows, _, _, _. split; [done|]. split; [done|].
  unfold number_rows, Frame.concat. cbn [rows columns].
  change (plan_columns ++ filter (fun c => c ∉ plan_columns) plan_columns)%list
    with plan_columns.
  cbn [app map]. rewrite map_fill_complete by done.
  rewrite fill_id by (intros c Hc'; by apply plan_row_has_columns).
  reflexivity.
Qed.

End PlanShape.

Section PlanExtras.

Import PyStr PyDate ProjectPlanner Examples.

Lemma lookup_after_head {A : Type} (x : A) l k : (x :: l) !! S k = l !! k.
Proof. reflexivity. Qed.

Lemma ids_count_from_one hash self project_info df i (r : row) :
  generate_project_plan hash self project_info = Ok df ->
  rows df !! i = Some r ->
  r !! "ID" = Some (CInt (Z.of_nat i + 1)).
Proof.
  unfold generate_project_plan. intros H Hi.
  destruct (plan_from_tasks hash self project_info) as [df'|e] eqn:E.
  - injection H as <-. unfold plan_from_tasks in E.
    bind_inv E. bind_inv E. injection E as <-.
    unfold number_rows in Hi. cbn [rows] in Hi.
    rewrite list_lookup_imap in Hi.
    destruct (_ !! i) as [r0|]; [|done]. injection Hi as <-.
    by simplify_map_eq.
  - unfold _create_default_plan in H.
    destruct (add_days (default_start_date self) 30); [|done].
    destruct (add_days (default_start_date self) 5); [|done].
    cbn [mbind result_bind of_records] in H. injection H as <-.
    cbn [rows] in Hi.
    destruct i as [|[|i]]; [| |done]; injection Hi as <-;
      apply plan_row_lookup.
Qed.

Lemma one_row_per_task hash self project_info df :
  default [] (info_tasks project_info) <> [] ->
  plan_from_tasks hash self project_info = Ok df ->
  length (rows df) = S (length (default [] (info_tasks project_info)))
  /\ (exists first : row,
        rows df !! 0%nat = Some first
        /\ first !! "Name"
           = Some (CStr (default "Untitled Project" (info_name project_info))))
  /\ forall k task,
       default [] (info_tasks project_info) !! k = Some task ->
       exists (r : row) name,
         rows df !! S k = Some r
         /\ task_name task = Some name
         /\ r !! "Name" = Some (CStr name)
         /\ r !! "Duration"
            = Some (CStr (days_text (default 5 (estimated_duration task))))
         /\ r !! "Notes" = Some (CStr (_generate_task_notes task))
         /\ r !! "Outline Level" = Some (CInt (_determine_outline_level name)).
Proof.
  intros Hne H.
  destruct (plan_from_tasks_rows hash _ _ _ H Hne)
    as (trows & total & first & last & Hrows & _ & Hdf).
  rewrite Hdf. split; [|split].
  - cbn [length]. rewrite length_imap. f_equal.
    by apply (plan_rows_length hash _ _ _ _ _ Hrows).
  - eexists. split; [reflexivity|]. unfold plan_row. by simplify_map_eq.
  - intros k task Hk.
    destruct (plan_rows_shape hash _ _ _ _ _ Hrows k task Hk)
      as (r & name & pred & s & f & Hr & Hn & -> & _ & _).
    eexists _, name.
    split; [by rewrite lookup_after_head, list_lookup_imap, Hr|].
    split; [done|]. unfold plan_row. repeat split; by simplify_map_eq.
Qed.

(** X1. In every table that [generate_project_plan] returns, the row at
    position [i] (from 0) has the ID [i + 1]: the IDs count from 1 in row
    order, in the plan built from the tasks and in the default plan. *)
Theorem X1_ids_count_from_one hash self project_info df i (r : row) :
  generate_project_plan hash self project_info = Ok df ->
  rows df !! i = Some r ->
  r !! "ID" = Some (CInt (Z.of_nat i + 1)).
Proof. apply ids_count_from_one. Qed.

Lemma X1_witness :
  row_at default_plan_2026 3 !! "ID" = Some (CInt (Z.of_nat 3 + 1)).
Proof.
  apply (X1_ids_count_from_one hash0 planner_2026 default_info
           default_plan_2026 3).
  - evaluate.
  - evaluate.
Defined.

(** X2. A table built from a task list that is not empty has one row for
    the project and then one row per task, in the order of the tasks: the
    first row has the name of the project (["Untitled Project"] when the
    info has none), and the row of a task has its name, the text
    ["<d> days"] of its duration ([5] when the task has none) and its
    notes. *)
Theorem X2_one_row_per_task hash self project_info df :
  default [] (info_tasks project_info) <> [] ->
  plan_from_tasks hash self project_info = Ok df ->
  length (rows df) = S (length (default [] (info_tasks project_info)))
  /\ (exists first : row,
        rows df !! 0%nat = Some first
        /\ first !! "Name"
           = Some (CStr (default "Untitled Project" (info_name project_info))))
  /\ forall k task,
       default [] (info_tasks project_info) !! k = Some task ->
       exists (r : row) name,
         rows df !! S k = Some r
         /\ task_name task = Some name
         /\ r !! "Name" = Some (CStr name)
         /\ r !! "Duration"
            = Some (CStr (days_text (default 5 (estimated_duration task))))
         /\ r !! "Notes" = Some (CStr (_generate_task_notes task))
         /\ r !! "Outline Level" = Some (CInt (_determine_outline_level name)).
Proof. apply one_row_per_task. Qed.

Lemma X2_witness :
  length (rows default_plan_2026)
  = S (length (default [] (info_tasks default_info)))
  /\ (exists first : row,
        rows default_plan_2026 !! 0%nat = Some first
        /\ first !! "Name"
           = Some (CStr (default "Untitled Project" (info_name default_info))))
  /\ forall k task,
       default [] (info_tasks default_info) !! k = Some task ->
       exists (r : row) name,
         rows default_plan_2026 !! S k = Some r
         /\ task_name task = Some name
         /\ r !! "Name" = Some (CStr name)
         /\ r !! "Duration"
            = Some (CStr (days_text (default 5 (estimated_duration task))))
         /\ r !! "Notes" = Some (CStr (_generate_task_notes task))
         /\ r !! "Outline Level" = Some (CInt (_determine_outline_level name)).
Proof.
  apply (X2_one_row_per_task hash0 planner_2026 default_info default_plan_2026).
  - discriminate.
  - evaluate.
Defined.

(** X3. In a table built from a task list that is not empty, the row of
    the first task has no predecessor, and the predecessor of the row of
    any later task is empty or the number of the task before it, counted
    from 1 among the tasks. The IDs are renumbered afterwards and the
    predecessors are not: a predecessor that is not empty is the ID of the
    row minus 2, that is, the ID of the row two rows above. *)
Theorem X3_predecessors_precede_renumbering hash self project_info df k (r : row) :
  default [] (info_tasks project_info) <> [] ->
  plan_from_tasks hash self project_info = Ok df ->
  rows df !! S k = Some r ->
  exists pred,
    r !! "Predecessors" = Some (CStr pred)
    /\ r !! "ID" = Some (CInt (Z.of_nat k + 2))
    /\ (k = 0%nat -> pred = "")
    /\ (pred = "" \/ pred = str_int (Z.of_nat k + 2 - 2)).
Proof.
  intros Hne H Hr.
  destruct (plan_from_tasks_rows hash _ _ _ H Hne)
    as (trows & total & first & last & Hrows & _ & Hdf).
  rewrite Hdf, lookup_after_head, list_lookup_imap in Hr.
  destruct (trows !! k) as [r0|] eqn:Hk; [|done]. injection Hr as <-.
  assert (is_Some (default [] (info_tasks project_info) !! k)) as [task Ht].
  { apply lookup_lt_is_Some.
    rewrite <- (plan_rows_length hash _ _ _ _ _ Hrows).
    by apply lookup_lt_is_Some. }
  destruct (plan_rows_shape hash _ _ _ _ _ Hrows k task Ht)
    as (r & name & pred & s & f & Hr & _ & -> & H0 & Hp).
  rewrite Hk in Hr. injection Hr as ->.
  exists pred. unfold plan_row.
  split; [by simplify_map_eq|].
  split; [simplify_map_eq; do 2 f_equal; lia|].
  split; [exact H0|].
  destruct Hp as [->| ->]; [by left|right]. f_equal. simpl. lia.
Qed.

Lemma X3_witness :
  exists pred,
    row_at default_plan_2026 2 !! "Predecessors" = Some (CStr pred)
    /\ row_at default_plan_2026 2 !! "ID" = Some (CInt (Z.of_nat 1 + 2))
    /\ (1%nat = 0%nat -> pred = "")
    /\ (pred = "" \/ pred = str_int (Z.of_nat 1 + 2 - 2)).
Proof.
  apply (X3_predecessors_precede_renumbering hash0 planner_2026 default_info
           default_plan_2026 1).
  - discriminate.
  - evaluate.
  - evaluate.
Defined.

Lemma plan_rows_nameless hash all_tasks tasks : forall i cur,
  Exists (fun task => task_name task = None) tasks ->
  exists e, plan_rows hash all_tasks i cur tasks = Raise e.
Proof.
  induction tasks as [|t rest IH]; intros i cur Hex;
    [by apply Exists_nil in Hex|].
  cbn [plan_rows].
  destruct (add_days cur (default 5 (estimated_duration t))) as [f|e];
    [|exists e; reflexivity].
  cbn [mbind result_bind].
  destruct (_calculate_predecessors hash _ i all_tasks) as [p|e];
    [|exists e; reflexivity].
  cbn [mbind result_bind]. unfold name_of at 1.
  apply Exists_cons in Hex as [Hn|Hex].
  - rewrite Hn. exists KeyError. reflexivity.
  - destruct (task_name t) as [n|]; [|exists KeyError; reflexivity].
    cbn [mbind result_bind].
    destruct (add_days cur (Z.max 1 _)) as [next|e]; [|exists e; reflexivity].
    cbn [mbind result_bind].
    destruct (IH (S i) next Hex) as [e ->]. exists e. reflexivity.
Qed.

(** X4. When some task has no name, [generate_project_plan] returns what
    [_create_default_plan] returns: the lookup [task['name']] raises, no row
    of any task is kept, and the table is the default plan of two rows. *)
Theorem X4_nameless_task_gives_default_plan hash self project_info :
  Exists (fun task => task_name task = None)
         (default [] (info_tasks project_info)) ->
  generate_project_plan hash self project_info = _create_default_plan self.
Proof.
  intros Hex. unfold generate_project_plan, plan_from_tasks.
  destruct (plan_rows_nameless hash (default [] (info_tasks project_info)) _
              0%nat (default_start_date self) Hex) as [e ->].
  reflexivity.
Qed.

Lemma X4_witness :
  generate_project_plan hash0 planner_2026 nameless_info
  = _create_default_plan planner_2026.
Proof.
  apply (X4_nameless_task_gives_default_plan hash0 planner_2026 nameless_info).
  apply Exists_cons_tl, Exists_cons_hd. reflexivity.
Defined.

(** X5. When the day of the planner is a date up to 9999-12-01,
    [generate_project_plan] raises nothing, whatever the project info is:
    it returns a table, the plan of the tasks or else the default plan. *)
Theorem X5_generation_always_returns hash self project_info :
  MINORD <= default_start_date self <= MAXORD - 30 ->
  exists df, generate_project_plan hash self project_info = Ok df.
Proof.
  intros Hd. unfold generate_project_plan.
  destruct (plan_from_tasks hash self project_info) as [df|e]; [by exists df|].
  unfold _create_default_plan, add_days.
  unfold MINORD, MAXORD in *.
  repeat case_match; try lia. cbn [mbind result_bind]. eauto.
Qed.

Lemma X5_witness :
  exists df, generate_project_plan hash0 planner_2026 nameless_info = Ok df.
Proof.
  apply (X5_generation_always_returns hash0 planner_2026 nameless_info).
  vm_compute. split; discriminate.
Defined.

End PlanExtras.

Section PlanSucceeds.

Import PyStr PyDate ProjectPlanner Examples.

Lemma rmap_total {A B : Type} (f : A -> result B) l :
  Forall (fun a => exists b, f a = Ok b) l -> exists bs, rmap f l = Ok bs.
Proof.
  induction 1 as [|a l [b Hb] _ [bs IH]]; [by exists []|].
  exists (b :: bs). cbn [rmap]. by rewrite Hb, IH.
Qed.

Lemma window_in_date_range d : in_window d -> MINORD <= d <= MAXORD.
Proof. unfold in_window, window_lo, window_hi, MINORD, MAXORD. lia. Qed.

(** The loop returns when every task can be scheduled and the dates stay
    in range, and each row then shows dates between the running date and
    the bound. *)
Lemma plan_rows_succeeds hash all_tasks tasks : forall i cur,
  drop i all_tasks = tasks ->
  Forall schedulable tasks ->
  MINORD <= cur ->
  cur + 15 * Z.of_nat (length tasks) + 30 <= MAXORD ->
  exists rs,
    plan_rows hash all_tasks i cur tasks = Ok rs
    /\ Forall (fun r => exists s n,
                 rendered_from r s n /\ cur <= s /\ 0 <= n
                 /\ s + n <= cur + 15 * Z.of_nat (length tasks) + 30) rs.
Proof.
  induction tasks as [|t rest IH]; intros i cur Hdrop Hall Hlo Hhi.
  { exists []. split; [done|constructor]. }
  apply Forall_cons in Hall as [[[name Hname] Hd] Hall].
  assert (all_tasks !! i = Some t) as Hi.
  { rewrite <- (Nat.add_0_r i), <- lookup_drop, Hdrop. reflexivity. }
  assert (drop (S i) all_tasks = rest) as Hdrop'.
  { rewrite (drop_S _ _ _ Hi) in Hdrop. by injection Hdrop. }
  set (d := default 5 (estimated_duration t)) in *.
  assert (1 <= Z.max 1 (d / 2) <= 15) as Hstep
    by (pose proof (Z.div_le_upper_bound d 2 15);
        pose proof (Z.div_pos d 2); lia).
  cbn [length] in Hhi.
  destruct (IH (S i) (cur + Z.max 1 (d / 2)) Hdrop' Hall) as (rs & Hrs & Hb);
    [lia|lia|].
  exists (plan_row (Z.of_nat i + 1) name "Yes" "Auto Scheduled" (days_text d)
            (strftime cur) (strftime (cur + d))
            (match i with
             | O => ""
             | S _ => if hash name mod 10 <? 6
                      then str_int (Z.of_nat i + 1 - 1) else ""
             end)
            (_determine_outline_level name) (_generate_task_notes t) :: rs).
  split.
  - cbn [plan_rows]. fold d.
    assert (add_days cur d = Ok (cur + d)) as ->
      by (unfold add_days; case_match; [done|lia]).
    assert (add_days cur (Z.max 1 (d / 2)) = Ok (cur + Z.max 1 (d / 2))) as ->
      by (unfold add_days; case_match; [done|lia]).
    unfold _calculate_predecessors, name_of. rewrite Hname.
    destruct i as [|i']; cbn [mbind result_bind].
    + by rewrite Hrs.
    + rewrite Hi, Hname. cbn [mbind result_bind].
      destruct (_ <? 6); cbn [mbind result_bind]; by rewrite Hrs.
  - constructor.
    + exists cur, d. split; [|cbn [length]; lia].
      pose proof plan_row_lookup as L. cbn zeta in L.
      unfold rendered_from. repeat split; apply L.
    + eapply Forall_impl; [exact Hb|].
      intros r (s & n & Hr & H1 & H2 & H3). exists s, n.
      split; [exact Hr|]. cbn [length]. lia.
Qed.

Lemma schedulable_tasks_are_planned hash self project_info :
  default [] (info_tasks project_info) <> [] ->
  Forall schedulable (default [] (info_tasks project_info)) ->
  in_window (default_start_date self) ->
  in_window (default_start_date self
             + 15 * Z.of_nat (length (default [] (info_tasks project_info)))
             + 30) ->
  exists df,
    plan_from_tasks hash self project_info = Ok df
    /\ generate_project_plan hash self project_info = Ok df
    /\ length (rows df)
       = S (length (default [] (info_tasks project_info))).
Proof.
  intros Hne Hall Wlo Whi.
  set (tasks := default [] (info_tasks project_info)) in *.
  set (today := default_start_date self) in *.
  pose proof (window_in_date_range _ Wlo) as Rlo.
  pose proof (window_in_date_range _ Whi) as Rhi.
  destruct (plan_rows_succeeds hash tasks tasks 0%nat today eq_refl Hall
              (proj1 Rlo) (proj2 Rhi)) as (rs & Hrs & Hb).
  assert (Forall (fun r => exists s n, rendered_from r s n
                    /\ in_window s /\ in_window (s + n)) rs) as Hw.
  { eapply Forall_impl; [exact Hb|]. intros r (s & n & Hr & H1 & H2 & H3).
    exists s, n. split; [done|]. unfold in_window in *. lia. }
  assert (exists df, plan_from_tasks hash self project_info = Ok df)
    as [df Hdf].
  { unfold plan_from_tasks. fold tasks today. rewrite Hrs.
    cbn [mbind result_bind].
    pose proof (plan_rows_staggered hash _ _ _ _ _ Hrs) as (_ & Hc & Hl).
    assert (rs <> []) as Hrows by (intros ->; by destruct tasks).
    assert (of_records plan_columns rs
            = {| columns := plan_columns; rows := rs |}) as ->
      by (unfold of_records; by destruct rs).
    unfold _create_summary_row.
    assert (Frame.empty {| columns := plan_columns; rows := rs |} = false)
      as -> by (unfold Frame.empty; simpl; by destruct rs).
    change (column {| columns := plan_columns; rows := rs |} "Duration")
      with (Ok (map (fun r : row => default CNaN (r !! "Duration")) rs)).
    change (column {| columns := plan_columns; rows := rs |} "Start")
      with (Ok (map (fun r : row => default CNaN (r !! "Start")) rs)).
    change (column {| columns := plan_columns; rows := rs |} "Finish")
      with (Ok (map (fun r : row => default CNaN (r !! "Finish")) rs)).
    cbn [mbind result_bind].
    destruct (rmap_total cell_days
                (map (fun r : row => default CNaN (r !! "Duration")) rs))
      as [days ->].
    { apply Forall_map. eapply Forall_impl; [exact Hw|].
      intros r (s & n & (_ & _ & Hd) & _). rewrite Hd.
      exists (Some n). apply cell_days_text. }
    cbn [mbind result_bind]. rewrite column_start_cells by done.
    destruct (rmap_total start_of rs) as [ss Hss].
    { eapply Forall_impl; [exact Hw|]. intros r (s & n & Hr & W1 & W2).
      exists s. by apply (rendered_start r s n). }
    rewrite Hss. cbn [mbind result_bind].
    rewrite column_finish_cells by done.
    destruct (rmap_total finish_of rs) as [fs Hfs].
    { eapply Forall_impl; [exact Hw|]. intros r (s & n & Hr & W1 & W2).
      exists (s + n). by apply (rendered_dates r s n). }
    rewrite Hfs. cbn [mbind result_bind].
    apply rmap_length in Hss, Hfs.
    destruct ss as [|s0 ss]; [by destruct rs|].
    destruct fs as [|f0 fs]; [by destruct rs|].
    cbn [py_min py_max mbind result_bind]. eauto. }
  exists df. split; [done|].
  split; [unfold generate_project_plan; by rewrite Hdf|].
  by apply (one_row_per_task hash self project_info df).
Qed.

(** X6. For a task list that is not empty, whose tasks all have a name and
    a duration of 0 to 30 days, and a day of the planner such that it and
    the day 15 days per task and 30 more later lie in
    1969-01-01..2068-12-31, the [try] block raises nothing:
    [generate_project_plan] returns the plan of the tasks, not the default
    plan, with one row per task after the summary row. *)
Theorem X6_schedulable_tasks_are_planned hash self project_info :
  default [] (info_tasks project_info) <> [] ->
  Forall schedulable (default [] (info_tasks project_info)) ->
  in_window (default_start_date self) ->
  in_window (default_start_date self
             + 15 * Z.of_nat (length (default [] (info_tasks project_info)))
             + 30) ->
  exists df,
    plan_from_tasks hash self project_info = Ok df
    /\ generate_project_plan hash self project_info = Ok df
    /\ length (rows df)
       = S (length (default [] (info_tasks project_info))).
Proof. apply schedulable_tasks_are_planned. Qed.

Lemma X6_witness :
  exists df,
    plan_from_tasks hash0 planner_2026 default_info = Ok df
    /\ generate_project_plan hash0 planner_2026 default_info = Ok df
    /\ length (rows df) = S (length (default [] (info_tasks default_info))).
Proof.
  apply (X6_schedulable_tasks_are_planned hash0 planner_2026 default_info).
  - discriminate.
  - repeat constructor; vm_compute; eauto; discriminate.
  - vm_compute. split; discriminate.
  - vm_compute. split; discriminate.
Defined.

End PlanSucceeds.

Section ValidateExtras.

Import PyStr PyDate ProjectPlanner Examples.

Lemma rmap_ok_inv {A B : Type} (f : A -> result B) l bs :
  rmap f l = Ok bs -> Forall (fun a => exists b, f a = Ok b) l.
Proof.
  revert bs. induction l as [|a l IH]; intros bs H; [constructor|].
  cbn [rmap] in H. bind_inv H. bind_inv H. constructor; eauto.
Qed.

Lemma filter_none {A : Type} (P : A -> Prop) `{!forall a, Decision (P a)} l :
  Forall (fun a => ~ P a) l -> filter P l = [].
Proof.
  induction 1 as [|a l Ha _ IH]; [done|]. by rewrite filter_cons_False.
Qed.

Lemma strptime_raises s e : strptime s = Raise e -> e = ValueError.
Proof. unfold strptime. repeat case_match; congruence. Qed.

Lemma date_cells_checked cells :
  Forall (fun c => exists s, c = CStr s) cells ->
  (exists ds, rmap strptime_cell cells = Ok ds)
  \/ rmap strptime_cell cells = Raise ValueError.
Proof.
  induction 1 as [|c cells [s ->] _ IH]; [left; by exists []|].
  cbn [rmap strptime_cell].
  destruct (strptime s) as [d|e] eqn:E.
  - cbn [mbind result_bind]. destruct IH as [[ds ->]| ->]; [left|right]; eauto.
  - right. by rewrite (strptime_raises _ _ E).
Qed.

Lemma check_dates_outcome df col :
  (has_column df col = true ->
   Forall (fun r : row => exists s, r !! col = Some (CStr s)) (rows df)) ->
  check_dates df col = Ok tt \/ check_dates df col = Raise ValueError.
Proof.
  intros H. unfold check_dates, column.
  destruct (has_column df col); [|by left].
  cbn [mbind result_bind].
  destruct (date_cells_checked
              (map (fun r : row => default CNaN (r !! col)) (rows df)))
    as [[ds ->]| ->]; [|by left|by right].
  apply Forall_map. eapply Forall_impl; [exact (H eq_refl)|].
  intros r [s ->]. by exists s.
Qed.

Lemma validate_plan_accepts self df :
  Frame.empty df = false ->
  Forall (fun col => has_column df col = true)
         ["ID"; "Name"; "Duration"; "Start"; "Finish"] ->
  Forall (fun r : row =>
            (exists name, r !! "Name" = Some (CStr name))
            /\ (exists s, start_of r = Ok s)
            /\ (exists f, finish_of r = Ok f)) (rows df) ->
  validate_plan self df = Ok [].
Proof.
  intros Hemp Hcols Hrows. unfold validate_plan. rewrite Hemp.
  rewrite filter_none
    by (eapply Forall_impl; [exact Hcols|]; intros c ->; done).
  assert (has_column df "Name" = true /\ has_column df "Start" = true
          /\ has_column df "Finish" = true) as (Hn & Hs & Hf).
  { rewrite !Forall_cons in Hcols. tauto. }
  unfold check_dates, column. rewrite Hn, Hs, Hf. cbn [mbind result_bind].
  assert (existsb is_missing
            (map (fun r : row => default CNaN (r !! "Name")) (rows df))
          = false) as ->.
  { apply not_true_is_false. intros [c [Hc Hm]]%existsb_exists.
    apply in_map_iff in Hc as (r & <- & Hr).
    rewrite Forall_forall in Hrows.
    destruct (Hrows r) as ([n Hn'] & _); [by apply list_elem_of_In|].
    by rewrite Hn' in Hm. }
  destruct (rmap_total strptime_cell
              (map (fun r : row => default CNaN (r !! "Start")) (rows df)))
    as [ss ->].
  { apply Forall_map. eapply Forall_impl; [exact Hrows|].
    intros r (_ & [s Hstart] & _). exists s. unfold start_of, Frame.get in Hstart.
    by destruct (r !! "Start"). }
  destruct (rmap_total strptime_cell
              (map (fun r : row => default CNaN (r !! "Finish")) (rows df)))
    as [fs ->].
  { apply Forall_map. eapply Forall_impl; [exact Hrows|].
    intros r (_ & _ & [f Hfin]). exists f. unfold finish_of, Frame.get in Hfin.
    by destruct (r !! "Finish"). }
  reflexivity.
Qed.

(** X7. [validate_plan] raises nothing for a table that has the column
    [Name] and whose cells in the columns [Start] and [Finish], where the
    table has these columns, are all strings: it returns its list of
    issues. *)
Theorem X7_validate_plan_returns self df :
  has_column df "Name" = true ->
  (forall col, col = "Start" \/ col = "Finish" ->
     has_column df col = true ->
     Forall (fun r : row => exists s, r !! col = Some (CStr s)) (rows df)) ->
  exists issues, validate_plan self df = Ok issues.
Proof.
  intros Hname Hcells. unfold validate_plan.
  destruct (Frame.empty df); [eauto|].
  unfold column at 1. rewrite Hname. cbn [mbind result_bind].
  destruct (check_dates_outcome df "Start") as [-> | ->]; [auto| |eauto].
  cbn [mbind result_bind].
  destruct (check_dates_outcome df "Finish") as [-> | ->]; [auto| |]; eauto.
Qed.

Lemma X7_witness :
  exists issues, validate_plan planner_2026 half_dated_plan = Ok issues.
Proof.
  apply (X7_validate_plan_returns planner_2026 half_dated_plan).
  - evaluate.
  - intros col [-> | ->] _; repeat constructor; eexists; vm_compute; reflexivity.
Defined.

(** X8. [validate_plan] finds no issue in a table that is not empty, has
    the five required columns, has a name in every row, and whose [Start]
    and [Finish] all read back under the date format. *)
Theorem X8_validate_plan_accepts self df :
  Frame.empty df = false ->
  Forall (fun col => has_column df col = true)
         ["ID"; "Name"; "Duration"; "Start"; "Finish"] ->
  Forall (fun r : row =>
            (exists name, r !! "Name" = Some (CStr name))
            /\ (exists s, start_of r = Ok s)
            /\ (exists f, finish_of r = Ok f)) (rows df) ->
  validate_plan self df = Ok [].
Proof. apply validate_plan_accepts. Qed.

Lemma X8_witness : validate_plan planner_2026 one_row_plan = Ok [].
Proof.
  apply (X8_validate_plan_accepts planner_2026 one_row_plan).
  - evaluate.
  - repeat constructor; evaluate.
  - repeat constructor; eexists; vm_compute; reflexivity.
Defined.

(** Every row of a plan built from tasks has a name and dates that read
    back. *)
Lemma planned_rows_read_back hash self project_info df :
  default [] (info_tasks project_info) <> [] ->
  plan_from_tasks hash self project_info = Ok df ->
  Forall (fun r : row =>
            (exists name, r !! "Name" = Some (CStr name))
            /\ (exists s, start_of r = Ok s)
            /\ (exists f, finish_of r = Ok f)) (rows df).
Proof.
  intros Hne H.
  destruct (plan_from_tasks_inv hash _ _ _ H Hne)
    as (trows & days & ss & fs & first & last & Hst & Hlen & _ & Hss & Hfs
        & Hfirst & Hlast & _ & Hrows).
  destruct (one_row_per_task hash _ _ _ Hne H) as (Hl & _ & Hnames).
  assert (Forall (fun r : row => (exists s, start_of r = Ok s)
                                 /\ (exists f, finish_of r = Ok f)) (rows df))
    as Hdates.
  { rewrite Hrows. constructor.
    - rewrite set_id_start, set_id_finish. unfold start_of, finish_of, Frame.get.
      rewrite (proj1 (proj2 (proj2 (proj2 (plan_row_lookup _ _ _ _ _ _ _ _ _ _))))).
      rewrite (proj1 (proj2 (proj2 (proj2 (proj2 (plan_row_lookup _ _ _ _ _ _ _ _ _ _)))))).
      cbn [mbind result_bind strptime_cell]. split.
      + exists first. apply strptime_strftime.
        apply (py_min_elem in_window ss); [done|].
        eapply rmap_Forall; [|exact Hss]. apply start_of_in_window.
      + exists last. apply strptime_strftime.
        apply (py_max_elem in_window fs); [done|].
        eapply rmap_Forall; [|exact Hfs]. apply finish_of_in_window.
    - apply rmap_ok_inv in Hss, Hfs.
      apply Forall_forall. intros r Hr.
      apply list_elem_of_lookup in Hr as [i Hi].
      rewrite list_lookup_imap in Hi.
      destruct (trows !! i) as [r0|] eqn:Hi0; [|done]. injection Hi as <-.
      rewrite set_id_start, set_id_finish.
      rewrite Forall_forall in Hss, Hfs.
      split; [apply Hss|apply Hfs]; by apply list_elem_of_lookup_2 with i. }
  apply Forall_forall. intros r Hr.
  rewrite Forall_forall in Hdates. split; [|by apply Hdates].
  apply list_elem_of_lookup in Hr as [i Hi].
  destruct i as [|k].
  - rewrite Hrows in Hi. injection Hi as <-. eexists.
    unfold plan_row. by simplify_map_eq.
  - assert (is_Some (default [] (info_tasks project_info) !! k)) as [t Ht].
    { apply lookup_lt_is_Some. apply lookup_lt_Some in Hi. lia. }
    destruct (Hnames k t Ht) as (r' & name & Hr' & _ & Hn & _).
    rewrite Hi in Hr'. injection Hr' as <-. eauto.
Qed.

(** X9. A table built from a task list that is not empty passes
    [validate_plan] without any issue. *)
Theorem X9_planned_table_is_valid hash self self' project_info df :
  default [] (info_tasks project_info) <> [] ->
  plan_from_tasks hash self project_info = Ok df ->
  validate_plan self' df = Ok [].
Proof.
  intros Hne H.
  destruct (plan_from_tasks_rows hash _ _ _ H Hne)
    as (trows & total & first & last & _ & Hcols & Hrows).
  apply validate_plan_accepts.
  - unfold Frame.empty. by rewrite Hrows, Hcols.
  - unfold has_column. rewrite Hcols. repeat constructor.
  - by apply (planned_rows_read_back hash self project_info).
Qed.

Lemma X9_witness : validate_plan planner_2068 default_plan_2026 = Ok [].
Proof.
  apply (X9_planned_table_is_valid hash0 planner_2026 planner_2068 default_info).
  - discriminate.
  - evaluate.
Defined.

End ValidateExtras.

Section UpdateExtras.

Import PyStr PyDate ProjectPlanner Examples.

Lemma Forall2_diagonal {A : Type} (R : A -> A -> Prop) l :
  (forall a, R a a) -> Forall2 R l l.
Proof. intros H. induction l; constructor; auto. Qed.

Lemma shift_row_other_cells diff (r r' : row) c :
  shift_row diff r = Ok r' -> c <> "Start" -> c <> "Finish" ->
  r' !! c = r !! c.
Proof.
  unfold shift_row. intros H H1 H2. repeat bind_inv H. injection H as <-.
  by simplify_map_eq.
Qed.

Lemma shift_rows_other_cells diff rs :
  Forall2 (fun r r' : row =>
             forall c, c <> "Start" -> c <> "Finish" -> r' !! c = r !! c)
          rs (fst (shift_rows diff rs)).
Proof.
  induction rs as [|r rs IH]; [constructor|]. cbn [shift_rows].
  destruct (shift_row diff r) as [r'|e] eqn:E.
  - destruct (shift_rows diff rs) as [rs' e']. cbn [fst] in *.
    constructor; [|done]. intros c. by apply (shift_row_other_cells diff).
  - cbn [fst]. by apply Forall2_diagonal.
Qed.

(** X10. Whatever the table and the new start date, and whether or not the
    shift fails on the way, [update_plan_dates] returns a table with the
    same columns and as many rows, in which every cell outside the columns
    [Start] and [Finish] is as it was. *)
Theorem X10_update_touches_dates_only self df new_start_date :
  let df' := update_plan_dates self df new_start_date in
  columns df' = columns df
  /\ length (rows df') = length (rows df)
  /\ Forall2 (fun r r' : row =>
                forall c, c <> "Start" -> c <> "Finish" -> r' !! c = r !! c)
             (rows df) (rows df').
Proof.
  intros df'.
  assert (columns df' = columns df
          /\ Forall2 (fun r r' : row =>
                        forall c, c <> "Start" -> c <> "Finish" ->
                                  r' !! c = r !! c) (rows df) (rows df'))
    as [Hc Hr].
  { unfold df', update_plan_dates.
    destruct (Frame.empty df); [split; [done|by apply Forall2_diagonal]|].
    destruct (rows df) as [|first rest] eqn:Hrows;
      [split; [done|rewrite Hrows; constructor]|].
    destruct (_ ≫= _) as [s0|e];
      [|split; [done|rewrite Hrows; by apply Forall2_diagonal]].
    cbn [columns rows]. split; [done|]. apply shift_rows_other_cells. }
  split; [done|]. split; [|done]. symmetry. by apply (Forall2_length _ _ _ Hr).
Qed.

Lemma X10_witness :
  let df' := update_plan_dates planner_2026 half_dated_plan
               (_ymd2ord 2027 1 4) in
  columns df' = columns half_dated_plan
  /\ length (rows df') = length (rows half_dated_plan)
  /\ Forall2 (fun r r' : row =>
                forall c, c <> "Start" -> c <> "Finish" -> r' !! c = r !! c)
             (rows half_dated_plan) (rows df').
Proof.
  exact (X10_update_touches_dates_only planner_2026 half_dated_plan
           (_ymd2ord 2027 1 4)).
Defined.

(** X11. When the [Start] or the [Finish] of the first row does not read
    back under the date format, [update_plan_dates] returns the table as it
    was: the shift is given up before any row is written. *)
Theorem X11_update_fails_at_first_row self df new_start_date first rest e :
  rows df = first :: rest ->
  start_of first = Raise e \/ finish_of first = Raise e ->
  update_plan_dates self df new_start_date = df.
Proof.
  intros Hrows Hfail. unfold update_plan_dates.
  destruct (Frame.empty df); [done|]. rewrite Hrows.
  fold (start_of first).
  destruct (start_of first) as [s0|e0] eqn:Hs; [|done].
  destruct Hfail as [?|Hf]; [done|].
  assert (shift_row (new_start_date - s0) first = Raise e) as Hrow.
  { unfold shift_row. unfold start_of in Hs. unfold finish_of in Hf.
    destruct (Frame.get first "Start") as [c|]; [|done].
    cbn [mbind result_bind] in Hs |- *. rewrite Hs. cbn [mbind result_bind].
    destruct (Frame.get first "Finish") as [c'|];
      cbn [mbind result_bind] in Hf |- *; [by rewrite Hf|congruence]. }
  cbn [shift_rows]. rewrite Hrow. cbn [fst]. rewrite <- Hrows. by destruct df.
Qed.

Lemma X11_witness :
  update_plan_dates planner_2026 undated_first_plan (_ymd2ord 2024 2 1)
  = undated_first_plan.
Proof.
  apply (X11_update_fails_at_first_row planner_2026 undated_first_plan
           (_ymd2ord 2024 2 1) undated_row [ten_day_row] ValueError).
  - reflexivity.
  - left. evaluate.
Defined.

Lemma string_length_append a b :
  String.length (a +:+ b) = (String.length a + String.length b)%nat.
Proof.
  induction a as [|c a IH]; [done|].
  change (S (String.length (a +:+ b))
          = S (String.length a + String.length b)).
  by rewrite IH.
Qed.

Lemma string_length_take n s :
  (n <= String.length s)%nat -> String.length (PyStr.take n s) = n.
Proof.
  revert s. induction n as [|n IH]; intros s H; [done|].
  destruct s as [|c s]; simpl in H; [lia|]. simpl. rewrite IH; lia.
Qed.

(** X12. The notes of a task are ["Priority: "], the priority (["Medium"]
    when the task has none), [". "] and the description; a description of
    more than 100 characters is cut to its first 97 characters and three
    dots, so that the notes never hold more than 100 characters of it. *)
Theorem X12_notes_keep_100_characters task :
  exists shown,
    _generate_task_notes task
    = "Priority: " +:+ default "Medium" (task_priority task) +:+ ". " +:+ shown
    /\ len shown <= 100
    /\ (len (default "" (task_description task)) <= 100 ->
        shown = default "" (task_description task))
    /\ (100 < len (default "" (task_description task)) ->
        shown = PyStr.take 97 (default "" (task_description task)) +:+ "..."
        /\ len shown = 100).
Proof.
  unfold _generate_task_notes.
  set (description := default "" (task_description task)).
  destruct (Z.ltb_spec 100 (len description)) as [Hlong|Hshort].
  - exists (PyStr.take 97 description +:+ "...").
    assert (len (PyStr.take 97 description +:+ "...") = 100) as Hlen.
    { unfold len in *. rewrite string_length_append, string_length_take; [done|].
      lia. }
    split; [done|]. split; [lia|]. split; [lia|done].
  - exists description. split; [done|]. split; [lia|]. split; [done|lia].
Qed.

Lemma X12_witness :
  exists shown,
    _generate_task_notes (month_task "Review")
    = "Priority: High. " +:+ shown /\ len shown <= 100.
Proof.
  destruct (X12_notes_keep_100_characters (month_task "Review"))
    as (shown & H & Hlen & _).
  by exists shown.
Defined.

(** X14. Of the tables that [generate_project_plan] returns,
    [validate_project_data] accepts exactly those that have a row: the
    table returned for an empty task list has no column but [ID] and is
    refused. *)
Theorem X14_project_data_is_valid_unless_empty hash self project_info df :
  generate_project_plan hash self project_info = Ok df ->
  Utils.validate_project_data df = true <-> rows df <> [].
Proof.
  unfold generate_project_plan. intros H.
  destruct (plan_from_tasks hash self project_info) as [df'|e] eqn:E.
  - injection H as <-.
    destruct (decide (default [] (info_tasks project_info) = [])) as [Hn|Hn].
    + rewrite (plan_from_no_tasks hash self project_info Hn) in E.
      injection E as <-. split; [discriminate|done].
    + destruct (plan_from_tasks_rows hash _ _ _ E Hn)
        as (trows & total & first & last & _ & Hcols & Hrows).
      split; [by rewrite Hrows|]. intros _.
      unfold Utils.validate_project_data, has_column. by rewrite Hcols.
  - unfold _create_default_plan in H.
    destruct (add_days (default_start_date self) 30); [|done].
    destruct (add_days (default_start_date self) 5); [|done].
    cbn [mbind result_bind of_records] in H. injection H as <-.
    split; [discriminate|]. intros _. reflexivity.
Qed.

Lemma X14_witness :
  Utils.validate_project_data default_plan_2026 = true
  <-> rows default_plan_2026 <> [].
Proof.
  apply (X14_project_data_is_valid_unless_empty hash0 planner_2026 default_info).
  evaluate.
Defined.

End UpdateExtras.

Section TimelineExtras.

Import PyStr PyDate ProjectPlanner Examples.

Lemma timeline_of_dated_rows rs :
  Forall (fun r : row =>
            (exists i, r !! "ID" = Some (CInt (Z.of_nat i + 1)))
            /\ (exists name, r !! "Name" = Some (CStr name))
            /\ (exists s, start_of r = Ok s)
            /\ (exists f, finish_of r = Ok f)) rs ->
  exists items,
    App.timeline_data rs = Ok items
    /\ Forall2 (fun (r : row) item =>
                  r !! "Name" = Some (App.item_task item)
                  /\ App.item_level item
                     = default (CInt 1) (r !! "Outline Level")
                  /\ start_of r = Ok (App.item_start item)
                  /\ finish_of r = Ok (App.item_finish item)
                  /\ App.item_duration item
                     = App.item_finish item - App.item_start item) rs items.
Proof.
  induction 1 as [|r rs ([i Hid] & [name Hn] & [s Hs] & [f Hf]) _
                    (items & Hitems & IH)].
  { exists []. split; [done|constructor]. }
  pose proof Hs as Hs'. pose proof Hf as Hf'.
  unfold start_of in Hs. unfold finish_of in Hf.
  exists ({| App.item_task := CStr name; App.item_start := s;
             App.item_finish := f; App.item_duration := f - s;
             App.item_level := default (CInt 1) (r !! "Outline Level") |}
          :: items).
  split.
  - cbn [App.timeline_data]. unfold Frame.get at 1. rewrite Hid.
    cbn [mbind result_bind].
    assert (App.is_zero (CInt (Z.of_nat i + 1)) = false) as ->
      by (unfold App.is_zero; destruct (Z.of_nat i + 1) eqn:?; [lia|done|done]).
    unfold App.timeline_item_of.
    destruct (Frame.get r "Start") as [c|]; [|done].
    cbn [mbind result_bind] in Hs |- *. rewrite Hs. cbn [mbind result_bind].
    destruct (Frame.get r "Finish") as [c'|]; [|done].
    cbn [mbind result_bind] in Hf |- *. rewrite Hf. cbn [mbind result_bind].
    unfold Frame.get. rewrite Hn. cbn [mbind result_bind].
    by rewrite Hitems.
  - constructor; [|done]. cbn. by rewrite Hn.
Qed.

(** X13. The timeline of the application charts every row of a table built
    from a task list that is not empty, the summary row too: the test
    [row['ID'] == 0] that should skip the summary row never holds, since
    the IDs of the table count from 1. The first entry is the project
    itself, with the name of the project and the outline level 0. *)
Theorem X13_timeline_charts_summary_row hash self project_info df :
  default [] (info_tasks project_info) <> [] ->
  plan_from_tasks hash self project_info = Ok df ->
  exists first items,
    App.timeline_data (rows df) = Ok (first :: items)
    /\ length (first :: items) = length (rows df)
    /\ App.item_task first
       = CStr (default "Untitled Project" (info_name project_info))
    /\ App.item_level first = CInt 0.
Proof.
  intros Hne H.
  pose proof (planned_rows_read_back hash _ _ _ Hne H) as Hread.
  assert (generate_project_plan hash self project_info = Ok df) as Hgen
    by (unfold generate_project_plan; by rewrite H).
  destruct (timeline_of_dated_rows (rows df)) as (items & Hitems & Hrel).
  { apply Forall_forall. intros r Hr.
    rewrite Forall_forall in Hread. split; [|by apply Hread].
    apply list_elem_of_lookup in Hr as [i Hi]. exists i.
    by apply (ids_count_from_one hash self project_info df). }
  destruct (plan_from_tasks_rows hash _ _ _ H Hne)
    as (trows & total & first & last & _ & _ & Hrows).
  pose proof (Forall2_length _ _ _ Hrel) as Hlen.
  rewrite Hrows in Hrel.
  destruct items as [|item items]; [by apply Forall2_nil_inv_r in Hrel|].
  exists item, items. split; [done|]. split; [done|].
  apply Forall2_cons_1 in Hrel as [(Hname & Hlevel & _) _].
  unfold plan_row in Hname, Hlevel. simplify_map_eq.
  split; [congruence|done].
Qed.

Lemma X13_witness :
  exists first items,
    App.timeline_data (rows default_plan_2026) = Ok (first :: items)
    /\ length (first :: items) = length (rows default_plan_2026)
    /\ App.item_task first
       = CStr (default "Untitled Project" (info_name default_info))
    /\ App.item_level first = CInt 0.
Proof.
  apply (X13_timeline_charts_summary_row hash0 planner_2026 default_info).
  - discriminate.
  - evaluate.
Defined.

End TimelineExtras.

(** * Further properties of the analyzer *)

Section AnalyzerExtras.

Import PyStr PyDate DocumentAnalyzer ProjectPlanner Examples.






















Lemma fromkeys_step_NoDup (keys : list string) x :
  NoDup keys ->
  NoDup (if bool_decide (x ∈ keys) then keys else (keys ++ [x])%list).
Proof.
  intros H. case_bool_decide; [done|].
  apply NoDup_app. split; [done|]. split; [|apply NoDup_singleton].
  intros y Hy ->%list_elem_of_singleton. done.
Qed.

Lemma fromkeys_fold_NoDup (l keys : list string) :
  NoDup keys ->
  NoDup (fold_left (fun keys x =>
                      if bool_decide (x ∈ keys) then keys
                      else (keys ++ [x])%list) l keys).
Proof.
  revert keys. induction l as [|x l IH]; intros keys H; [done|].
  cbn [fold_left]. by apply IH, fromkeys_step_NoDup.
Qed.

Lemma fromkeys_fold_elements (l keys : list string) y :
  y ∈ fold_left (fun keys x =>
                   if bool_decide (x ∈ keys) then keys
                   else (keys ++ [x])%list) l keys ->
  y ∈ keys \/ y ∈ l.
Proof.
  revert keys. induction l as [|x l IH]; intros keys H; [by left|].
  cbn [fold_left] in H. apply IH in H as [H|H]; [|right; by right].
  case_bool_decide; [by left|].
  apply elem_of_app in H as [H|H%list_elem_of_singleton]; [by left|].
  right. subst. by left.
Qed.

Lemma scan_phases_nonempty sentences :
  Forall (fun name => name <> EmptyString) (scan_phases sentences).
Proof.
  induction sentences as [|sentence rest IH]; [constructor|].
  cbn [scan_phases]. repeat case_match; try done.
  constructor; [|done]. by apply String.eqb_neq.
Qed.

(** X18. Whatever the text and the tokenizer, [_extract_phases] returns at
    most 5 phase names, no name twice, and no empty name. *)
Theorem X18_phases_are_distinct sent_tokenize text :
  let phases := _extract_phases sent_tokenize text in
  (length phases <= 5)%nat
  /\ NoDup phases
  /\ Forall (fun name => name <> EmptyString) phases.
Proof.
  unfold _extract_phases, fromkeys. cbn zeta.
  set (names := scan_phases (sent_tokenize text)).
  split; [rewrite length_take; lia|]. split.
  - eapply sublist_NoDup; [|apply sublist_take].
    apply fromkeys_fold_NoDup, NoDup_nil_2.
  - apply Forall_take, Forall_forall. intros y Hy.
    apply fromkeys_fold_elements in Hy as [Hy|Hy]; [by apply elem_of_nil in Hy|].
    pose proof (scan_phases_nonempty (sent_tokenize text)) as H.
    rewrite Forall_forall in H. by apply H.
Qed.

End AnalyzerExtras.

(** * The text cleaning of the utilities *)

Section CleanTextExtras.

Import PyStr DocumentAnalyzer.

Lemma newline_is_space : is_space Utils.newline = true.
Proof. reflexivity. Qed.

Lemma next_is_newline_space s :
  Utils.next_is_newline s = true -> next_is_space s = true.
Proof.
  destruct s as [|c s]; [done|]. cbn.
  intros ->%Ascii.eqb_eq. apply newline_is_space.
Qed.

Lemma collapse_newlines_head s :
  next_is_space (Utils.collapse_newlines s) = next_is_space s.
Proof.
  induction s as [|c s IH]; [done|]. cbn [Utils.collapse_newlines].
  destruct (Ascii.eqb_spec c Utils.newline) as [->|]; [|done].
  destruct (Utils.next_is_newline s) eqn:E; [|done].
  cbn [andb]. rewrite IH. by apply next_is_newline_space.
Qed.

Lemma collapse_spaces_newlines s :
  collapse_spaces (Utils.collapse_newlines s) = collapse_spaces s.
Proof.
  induction s as [|c s IH]; [done|]. cbn [Utils.collapse_newlines].
  destruct (Ascii.eqb c Utils.newline && Utils.next_is_newline s) eqn:E.
  - apply andb_true_iff in E as [->%Ascii.eqb_eq E].
    cbn [collapse_spaces]. rewrite newline_is_space.
    by rewrite (next_is_newline_space _ E).
  - cbn [collapse_spaces]. by rewrite collapse_newlines_head, IH.
Qed.

Lemma collapse_spaces_head s :
  next_is_space (collapse_spaces s) = next_is_space s.
Proof.
  induction s as [|c s IH]; [done|]. cbn [collapse_spaces].
  destruct (is_space c) eqn:Hc; cbn [next_is_space]; [|done].
  destruct (next_is_space s) eqn:E; [|done]. by rewrite IH.
Qed.

Lemma lstrip_collapse_spaces s :
  lstrip (collapse_spaces s) = collapse_spaces (lstrip s).
Proof.
  induction s as [|c s IH]; [done|]. cbn [collapse_spaces lstrip].
  destruct (is_space c) eqn:Hc.
  - destruct (next_is_space s); [done|]. cbn [lstrip].
    change (is_space " ") with true. done.
  - cbn [lstrip collapse_spaces]. by rewrite Hc.
Qed.

Lemma split_lstrip s : split (lstrip s) = split s.
Proof.
  induction s as [|c s IH]; [done|]. cbn [lstrip split].
  destruct (is_space c) eqn:Hc; [done|]. cbn [split]. by rewrite Hc.
Qed.

Lemma next_is_space_lstrip s : next_is_space (lstrip s) = false.
Proof.
  induction s as [|c s IH]; [done|]. cbn [lstrip].
  destruct (is_space c) eqn:Hc; [done|]. done.
Qed.

Lemma split_words_nonempty s : Forall (fun w => w <> EmptyString) (split s).
Proof.
  induction s as [|c s IH]; [constructor|]. cbn [split].
  destruct (is_space c); [done|].
  destruct (starts_space s); [by constructor|].
  destruct (split s) as [|w ws]; [by repeat constructor|].
  apply Forall_cons in IH as [_ IH]. by constructor.
Qed.

Lemma join_cons_cons sep w w' l :
  join sep (w :: w' :: l) = w +:+ sep +:+ join sep (w' :: l).
Proof. done. Qed.

Lemma join_push c sep w l :
  join sep (String c w :: l) = String c (join sep (w :: l)).
Proof. destruct l; done. Qed.

Lemma join_nonempty sep l :
  Forall (fun w => w <> EmptyString) l -> l <> [] ->
  join sep l <> EmptyString.
Proof.
  intros Hl Hne. destruct l as [|w l]; [done|].
  apply Forall_cons in Hl as [Hw _].
  destruct w as [|c w]; [done|]. by rewrite join_push.
Qed.

Lemma split_head s :
  s <> EmptyString -> next_is_space s = false -> split s <> [].
Proof.
  destruct s as [|c s]; [done|]. cbn [next_is_space split].
  intros _ ->. destruct (starts_space s); [done|]. by destruct (split s).
Qed.

Lemma rstrip_push c s : is_space c = false ->
  rstrip (String c s) = String c (rstrip s).
Proof. intros Hc. cbn [rstrip]. rewrite Hc. by destruct (rstrip s). Qed.

(** What is left of the collapsed text once the whitespace at its end is
    gone: the words, with one space before them when the text starts with
    whitespace. *)
Lemma rstrip_collapse_spaces s :
  rstrip (collapse_spaces s)
  = (if next_is_space s && negb (bool_decide (split s = []))
     then " " else EmptyString) +:+ join " " (split s).
Proof.
  induction s as [|c s IH]; [done|].
  cbn [collapse_spaces next_is_space split].
  destruct (is_space c) eqn:Hc.
  - destruct (next_is_space s) eqn:Hs; [exact IH|].
    cbn [andb] in IH |- *. cbn [rstrip]. rewrite IH.
    change (is_space " ") with true.
    case_bool_decide as Hw.
    + by rewrite Hw.
    + pose proof (join_nonempty " " _ (split_words_nonempty s) Hw).
      cbn [negb]. cbv [String.append]. fold String.append.
      by destruct (join " " (split s)).
  - cbn [andb]. rewrite (rstrip_push _ _ Hc), IH.
    destruct s as [|c' s]; [done|].
    cbn [starts_space next_is_space].
    destruct (is_space c') eqn:Hc'.
    + cbn [andb]. case_bool_decide as Hw.
      * by rewrite Hw.
      * cbn [negb]. destruct (split (String c' s)) as [|w ws]; done.
    + cbn [andb].
      pose proof (split_head (String c' s) ltac:(done) Hc') as Hw.
      destruct (split (String c' s)) as [|w ws]; [done|].
      by rewrite join_push.
Qed.

(** X19. [clean_text] of the utilities returns the words of the text (its
    maximal runs of characters that are not whitespace) in their order,
    with one space between two words: the value of
    [' '.join(text.split())]. *)
Theorem X19_clean_text_joins_words text :
  Utils.clean_text text = join " " (split text).
Proof.
  unfold Utils.clean_text, strip.
  rewrite collapse_spaces_newlines, lstrip_collapse_spaces.
  rewrite rstrip_collapse_spaces, next_is_space_lstrip, split_lstrip.
  done.
Qed.

End CleanTextExtras.
